(** * yagbc: the SM83 instruction core and its address space

    A shallow embedding of
      - [internal/core/gb/memory]    (BasicMemory: Read, Write, LoadROM),
      - [internal/core/gb/processor] (Registers, CPU, the opcode table),
    followed by the properties the specification states about them.

    Conventions.  Go's [uint8], [uint16] and [uint64] are modelled as [Z]
    with the wrap-around of every arithmetic operation written out
    ([wrap8], [wrap16], [wrap64]); conversions that truncate ([uint8(x)])
    are the same wraps.  Fixed-size Go arrays are lists whose length is
    recorded by a well-formedness predicate.  Methods with a pointer
    receiver take the receiver and return the updated receiver. *)

From Stdlib Require Import ZArith Lia Bool.
From stdpp Require Import base list strings.
From coqutil Require Import Z.bitblast.

Local Open Scope Z_scope.

(* ===================================================================== *)
(** ** Machine integers *)
(* ===================================================================== *)

Definition wrap8 (z : Z) : Z := z mod 256.
Definition wrap16 (z : Z) : Z := z mod 65536.
Definition wrap64 (z : Z) : Z := z mod 2 ^ 64.

Definition is_u8 (z : Z) : Prop := 0 <= z < 256.
Definition is_u16 (z : Z) : Prop := 0 <= z < 65536.

(* ===================================================================== *)
(** ** package processor: registers.go *)
(* ===================================================================== *)

Module Registers.
(** [type Registers struct { A, F, B, C, D, E, H, L uint8; SP, PC uint16 }] *)
Record t : Type := mk {
  A : Z; F : Z; B : Z; C : Z; D : Z; E : Z; H : Z; L : Z;
  SP : Z; PC : Z
}.

(** Field assignments [r.X = v]. *)
Definition set_A (v : Z) (r : t) : t := mk v (F r) (B r) (C r) (D r) (E r) (H r) (L r) (SP r) (PC r).
Definition set_F (v : Z) (r : t) : t := mk (A r) v (B r) (C r) (D r) (E r) (H r) (L r) (SP r) (PC r).
Definition set_B (v : Z) (r : t) : t := mk (A r) (F r) v (C r) (D r) (E r) (H r) (L r) (SP r) (PC r).
Definition set_C (v : Z) (r : t) : t := mk (A r) (F r) (B r) v (D r) (E r) (H r) (L r) (SP r) (PC r).
Definition set_D (v : Z) (r : t) : t := mk (A r) (F r) (B r) (C r) v (E r) (H r) (L r) (SP r) (PC r).
Definition set_E (v : Z) (r : t) : t := mk (A r) (F r) (B r) (C r) (D r) v (H r) (L r) (SP r) (PC r).
Definition set_H (v : Z) (r : t) : t := mk (A r) (F r) (B r) (C r) (D r) (E r) v (L r) (SP r) (PC r).
Definition set_L (v : Z) (r : t) : t := mk (A r) (F r) (B r) (C r) (D r) (E r) (H r) v (SP r) (PC r).
Definition set_SP (v : Z) (r : t) : t := mk (A r) (F r) (B r) (C r) (D r) (E r) (H r) (L r) v (PC r).
Definition set_PC (v : Z) (r : t) : t := mk (A r) (F r) (B r) (C r) (D r) (E r) (H r) (L r) (SP r) v.

(** A value of the Go struct type: every field within its width. *)
Definition wf (r : t) : Prop :=
  is_u8 (A r) /\ is_u8 (F r) /\ is_u8 (B r) /\ is_u8 (C r) /\
  is_u8 (D r) /\ is_u8 (E r) /\ is_u8 (H r) /\ is_u8 (L r) /\
  is_u16 (SP r) /\ is_u16 (PC r).
End Registers.

Abbreviation Registers := Registers.t.

(** Flag bit positions in the F register: [Z N H C 0 0 0 0]. *)
Definition FlagZ : Z := 0x80.
Definition FlagN : Z := 0x40.
Definition FlagH : Z := 0x20.
Definition FlagC : Z := 0x10.

Definition NewRegisters : Registers :=
  {| Registers.A := 0x00; Registers.F := 0x00;
     Registers.B := 0x00; Registers.C := 0x00;
     Registers.D := 0x00; Registers.E := 0x00;
     Registers.H := 0x00; Registers.L := 0x00;
     Registers.SP := 0xFFFE; Registers.PC := 0x0000 |}.

(** [uint16(hi)<<8 | uint16(lo)] for [hi], [lo] of type [uint8]: widening
    a byte changes nothing, the 16-bit shift drops what leaves the word. *)
Definition pair16 (hi lo : Z) : Z :=
  Z.lor (wrap16 (Z.shiftl hi 8)) lo.

Definition AF (r : Registers) : Z := pair16 (Registers.A r) (Registers.F r).
Definition BC (r : Registers) : Z := pair16 (Registers.B r) (Registers.C r).
Definition DE (r : Registers) : Z := pair16 (Registers.D r) (Registers.E r).
Definition HL (r : Registers) : Z := pair16 (Registers.H r) (Registers.L r).

(** [r.A = uint8(value >> 8); r.F = uint8(value) & 0xF0] *)
Definition SetAF (value : Z) (r : Registers) : Registers :=
  let r := Registers.set_A (wrap8 (Z.shiftr value 8)) r in
  Registers.set_F (Z.land (wrap8 value) 0xF0) r.

Definition SetBC (value : Z) (r : Registers) : Registers :=
  let r := Registers.set_B (wrap8 (Z.shiftr value 8)) r in
  Registers.set_C (wrap8 value) r.

Definition SetDE (value : Z) (r : Registers) : Registers :=
  let r := Registers.set_D (wrap8 (Z.shiftr value 8)) r in
  Registers.set_E (wrap8 value) r.

Definition SetHL (value : Z) (r : Registers) : Registers :=
  let r := Registers.set_H (wrap8 (Z.shiftr value 8)) r in
  Registers.set_L (wrap8 value) r.

(** [(r.F & flag) != 0] *)
Definition GetFlag (flag : Z) (r : Registers) : bool :=
  negb (Z.land (Registers.F r) flag =? 0).

Definition GetFlagZ (r : Registers) : bool := GetFlag FlagZ r.
Definition GetFlagN (r : Registers) : bool := GetFlag FlagN r.
Definition GetFlagH (r : Registers) : bool := GetFlag FlagH r.
Definition GetFlagC (r : Registers) : bool := GetFlag FlagC r.

(** [if value { r.F |= flag } else { r.F &^= flag }] *)
Definition SetFlag (flag : Z) (value : bool) (r : Registers) : Registers :=
  if value
  then Registers.set_F (Z.lor (Registers.F r) flag) r
  else Registers.set_F (Z.ldiff (Registers.F r) flag) r.

Definition SetFlagZ (value : bool) (r : Registers) : Registers := SetFlag FlagZ value r.
Definition SetFlagN (value : bool) (r : Registers) : Registers := SetFlag FlagN value r.
Definition SetFlagH (value : bool) (r : Registers) : Registers := SetFlag FlagH value r.
Definition SetFlagC (value : bool) (r : Registers) : Registers := SetFlag FlagC value r.

(** [r.F = 0], then one [r.F |= FlagX] per true argument. *)
Definition SetFlags (z n h c : bool) (r : Registers) : Registers :=
  let r := Registers.set_F 0 r in
  let r := if z then Registers.set_F (Z.lor (Registers.F r) FlagZ) r else r in
  let r := if n then Registers.set_F (Z.lor (Registers.F r) FlagN) r else r in
  let r := if h then Registers.set_F (Z.lor (Registers.F r) FlagH) r else r in
  let r := if c then Registers.set_F (Z.lor (Registers.F r) FlagC) r else r in
  r.

(** The low nibble of F. *)
Definition low_nibble (r : Registers) : Z := Z.land (Registers.F r) 0x0F.

(* ===================================================================== *)
(** ** package memory *)
(* ===================================================================== *)

(** [type Memory interface { Read(addr uint16) uint8; Write(addr uint16, val uint8) }]
    [Read] inspects the memory, [Write] returns the memory it leaves. *)
Class Memory (M : Type) : Type := {
  Read : M -> Z -> Z;
  Write : M -> Z -> Z -> M
}.

(** Go's builtin [copy(dst, src)]: the first [min(len(dst), len(src))]
    elements of [dst] are replaced by those of [src]. *)
Definition copy (dst src : list Z) : list Z :=
  take (length dst) src ++ drop (length src) dst.

(** Array indexing [a[i]] and assignment [a[i] = v].  Go panics on an
    index out of range; here an out-of-range read gives the default
    element and an out-of-range assignment does nothing.  Neither is
    reached: every index the code uses is guarded by the address decode
    and so lies within the declared length of its array. *)
Definition index (a : list Z) (i : Z) : Z := a !!! Z.to_nat i.
Definition assign (a : list Z) (i : Z) (v : Z) : list Z := <[Z.to_nat i := v]> a.

Module BasicMemory.
(** [rom [0x8000]uint8; wram [0x2000]uint8; hram [0x7F]uint8] *)
Record t : Type := mk {
  rom : list Z;
  wram : list Z;
  hram : list Z
}.

Definition ROM_LEN : Z := 0x8000.
Definition WRAM_LEN : Z := 0x2000.
Definition HRAM_LEN : Z := 0x7F.

(** A value of the Go struct type: the three arrays have their declared
    lengths and hold bytes. *)
Definition wf (m : t) : Prop :=
  Z.of_nat (length (rom m)) = ROM_LEN /\
  Z.of_nat (length (wram m)) = WRAM_LEN /\
  Z.of_nat (length (hram m)) = HRAM_LEN /\
  Forall is_u8 (rom m) /\ Forall is_u8 (wram m) /\ Forall is_u8 (hram m).

(** [&BasicMemory{}]: arrays are zero-initialised. *)
Definition NewBasicMemory : t :=
  {| rom := replicate (Z.to_nat ROM_LEN) 0;
     wram := replicate (Z.to_nat WRAM_LEN) 0;
     hram := replicate (Z.to_nat HRAM_LEN) 0 |}.

Definition Read (m : t) (addr : Z) : Z :=
  if addr <=? 0x7FFF then index (rom m) addr
  else if (0xC000 <=? addr) && (addr <=? 0xDFFF) then index (wram m) (addr - 0xC000)
  else if (0xE000 <=? addr) && (addr <=? 0xFDFF) then index (wram m) (addr - 0xE000)
  else if (0xFF80 <=? addr) && (addr <=? 0xFFFE) then index (hram m) (addr - 0xFF80)
  else 0xFF.

Definition Write (m : t) (addr : Z) (val : Z) : t :=
  if addr <=? 0x7FFF then mk (assign (rom m) addr val) (wram m) (hram m)
  else if (0xC000 <=? addr) && (addr <=? 0xDFFF)
    then mk (rom m) (assign (wram m) (addr - 0xC000) val) (hram m)
  else if (0xE000 <=? addr) && (addr <=? 0xFDFF)
    then mk (rom m) (assign (wram m) (addr - 0xE000) val) (hram m)
  else if (0xFF80 <=? addr) && (addr <=? 0xFFFE)
    then mk (rom m) (wram m) (assign (hram m) (addr - 0xFF80) val)
  else m.

(** The [error] result of [LoadROM]; the message carries the two
    lengths that [fmt.Errorf] prints. *)
Inductive error : Type :=
| RomTooLarge (len max : Z).

(** [if len(data) > len(m.rom) { return error }; copy(m.rom[:], data); return nil]
    [len(m.rom)] is the declared array length.  The receiver is returned
    together with the result; on the error path it is the receiver as it
    came in. *)
Definition LoadROM (m : t) (data : list Z) : t * option error :=
  if Z.of_nat (length data) >? ROM_LEN
  then (m, Some (RomTooLarge (Z.of_nat (length data)) ROM_LEN))
  else (mk (copy (rom m) data) (wram m) (hram m), None).

(** [if addr <= 0x7FFF { m.rom[addr] = val }] *)
Definition DirectWrite (m : t) (addr : Z) (val : Z) : t :=
  if addr <=? 0x7FFF then mk (assign (rom m) addr val) (wram m) (hram m) else m.
End BasicMemory.

Abbreviation BasicMemory := BasicMemory.t.

#[export] Instance BasicMemory_Memory : Memory BasicMemory :=
  {| Read := BasicMemory.Read; Write := BasicMemory.Write |}.

(* ===================================================================== *)
(** ** package processor: the CPU and its opcode table *)
(* ===================================================================== *)

Module CPU.
(** [type CPU struct { Registers *Registers; Memory memory.Memory;
                       Halted bool; TotalCycles uint64 }] *)
Record t (M : Type) : Type := mk {
  Registers : Registers.t;
  Memory : M;
  Halted : bool;
  TotalCycles : Z
}.
Arguments mk {M} _ _ _ _.
Arguments Registers {M} _.
Arguments Memory {M} _.
Arguments Halted {M} _.
Arguments TotalCycles {M} _.

(** Assignments through [cpu.Registers] and to [cpu.TotalCycles]. *)
Definition set_Registers {M} (r : Registers.t) (cpu : t M) : t M :=
  mk r (Memory cpu) (Halted cpu) (TotalCycles cpu).
Definition set_TotalCycles {M} (n : Z) (cpu : t M) : t M :=
  mk (Registers cpu) (Memory cpu) (Halted cpu) n.
End CPU.

Abbreviation CPU := CPU.t.

(** [fmt.Sprintf("%02X", i)] for a byte [i]. *)
Definition hex_digit (d : Z) : string :=
  match d with
  | 0 => "0" | 1 => "1" | 2 => "2" | 3 => "3" | 4 => "4" | 5 => "5"
  | 6 => "6" | 7 => "7" | 8 => "8" | 9 => "9" | 10 => "A" | 11 => "B"
  | 12 => "C" | 13 => "D" | 14 => "E" | _ => "F"
  end%string.

Definition sprintf_02X (i : Z) : string :=
  (hex_digit (i / 16) ++ hex_digit (i mod 16))%string.

Section Processor.
Context {M : Type} `{Memory M}.

(** [type Opcode struct { Mnemonic string; Bytes int; Cycles int; Execute }]
    where [Execute] is a function on a CPU pointer: here it returns
    the CPU it leaves behind. *)
Record Opcode : Type := mkOpcode {
  Mnemonic : string;
  Bytes : Z;
  Cycles : Z;
  Execute : CPU M -> CPU M
}.

Definition NewCPU (mem : M) : CPU M :=
  {| CPU.Registers := NewRegisters;
     CPU.Memory := mem;
     CPU.Halted := false;
     CPU.TotalCycles := 0 |}.

(** [value := cpu.Memory.Read(cpu.Registers.PC); cpu.Registers.PC++; return value] *)
Definition fetchByte (cpu : CPU M) : Z * CPU M :=
  let value := Read (CPU.Memory cpu) (Registers.PC (CPU.Registers cpu)) in
  let cpu := CPU.set_Registers
               (Registers.set_PC (wrap16 (Registers.PC (CPU.Registers cpu) + 1))
                                 (CPU.Registers cpu)) cpu in
  (value, cpu).

(** [low := cpu.fetchByte(); high := cpu.fetchByte();
     return uint16(high)<<8 | uint16(low)] *)
Definition fetchWord (cpu : CPU M) : Z * CPU M :=
  let '(low, cpu) := fetchByte cpu in
  let '(high, cpu) := fetchByte cpu in
  (pair16 high low, cpu).

Definition opUnknown (cpu : CPU M) : CPU M := cpu.

Definition opNOP (cpu : CPU M) : CPU M := cpu.

Definition opLD_A_n (cpu : CPU M) : CPU M :=
  let '(v, cpu) := fetchByte cpu in
  CPU.set_Registers (Registers.set_A v (CPU.Registers cpu)) cpu.

Definition opLD_B_n (cpu : CPU M) : CPU M :=
  let '(v, cpu) := fetchByte cpu in
  CPU.set_Registers (Registers.set_B v (CPU.Registers cpu)) cpu.

Definition opLD_C_n (cpu : CPU M) : CPU M :=
  let '(v, cpu) := fetchByte cpu in
  CPU.set_Registers (Registers.set_C v (CPU.Registers cpu)) cpu.

Definition opLD_A_B (cpu : CPU M) : CPU M :=
  CPU.set_Registers
    (Registers.set_A (Registers.B (CPU.Registers cpu)) (CPU.Registers cpu)) cpu.

Definition opLD_A_C (cpu : CPU M) : CPU M :=
  CPU.set_Registers
    (Registers.set_A (Registers.C (CPU.Registers cpu)) (CPU.Registers cpu)) cpu.

(** [a := A; b := B; result := a + b] in [uint8];
    the half-carry test adds two [uint8] nibbles, the carry test adds
    in [uint16]. *)
Definition opADD_A_B (cpu : CPU M) : CPU M :=
  let a := Registers.A (CPU.Registers cpu) in
  let b := Registers.B (CPU.Registers cpu) in
  let result := wrap8 (a + b) in
  let r := CPU.Registers cpu in
  let r := SetFlagZ (result =? 0) r in
  let r := SetFlagN false r in
  let r := SetFlagH (wrap8 (Z.land a 0x0F + Z.land b 0x0F) >? 0x0F) r in
  let r := SetFlagC (wrap16 (a + b) >? 0xFF) r in
  let r := Registers.set_A result r in
  CPU.set_Registers r cpu.

Definition opJP_nn (cpu : CPU M) : CPU M :=
  let '(addr, cpu) := fetchWord cpu in
  CPU.set_Registers (Registers.set_PC addr (CPU.Registers cpu)) cpu.

(** Table slot assignment [opcodeTable[i] = o]. *)
Definition set_entry (i : Z) (o : Opcode) (tbl : list Opcode) : list Opcode :=
  <[Z.to_nat i := o]> tbl.

Definition unknownOpcode (i : Z) : Opcode :=
  {| Mnemonic := ("UNKNOWN_0x" ++ sprintf_02X i)%string;
     Bytes := 1; Cycles := 4; Execute := opUnknown |}.

(** [initOpcodes]: all 256 slots are first filled with the UNKNOWN
    descriptor, then the implemented opcodes are assigned in source
    order. *)
Definition initOpcodes : list Opcode :=
  let tbl := (fun i : nat => unknownOpcode (Z.of_nat i)) <$> seq 0 256 in
  let tbl := set_entry 0x00 (mkOpcode "NOP" 1 4 opNOP) tbl in
  let tbl := set_entry 0x3E (mkOpcode "LD A, n" 2 8 opLD_A_n) tbl in
  let tbl := set_entry 0x06 (mkOpcode "LD B, n" 2 8 opLD_B_n) tbl in
  let tbl := set_entry 0x0E (mkOpcode "LD C, n" 2 8 opLD_C_n) tbl in
  let tbl := set_entry 0x78 (mkOpcode "LD A, B" 1 4 opLD_A_B) tbl in
  let tbl := set_entry 0x79 (mkOpcode "LD A, C" 1 4 opLD_A_C) tbl in
  let tbl := set_entry 0x80 (mkOpcode "ADD A, B" 1 4 opADD_A_B) tbl in
  let tbl := set_entry 0xC3 (mkOpcode "JP nn" 3 16 opJP_nn) tbl in
  tbl.

(** [var opcodeTable [256]Opcode], as [init] leaves it. *)
Definition opcodeTable : list Opcode := initOpcodes.

#[global] Instance Opcode_inhabited : Inhabited Opcode :=
  populate (unknownOpcode 0).

(** [opcodeTable[opcode]] for [opcode] of type [uint8]. *)
Definition lookupOpcode (opcode : Z) : Opcode :=
  opcodeTable !!! Z.to_nat opcode.

(** [Step]: one fetch-decode-execute cycle; returns the CPU after the
    call and the cycle count. *)
Definition Step (cpu : CPU M) : CPU M * Z :=
  if CPU.Halted cpu then (cpu, 4)
  else
    let '(opcode, cpu) := fetchByte cpu in
    let instruction := lookupOpcode opcode in
    let cpu := Execute instruction cpu in
    let cpu := CPU.set_TotalCycles
                 (wrap64 (CPU.TotalCycles cpu + wrap64 (Cycles instruction))) cpu in
    (cpu, Cycles instruction).
End Processor.

(** The eight opcodes [initOpcodes] assigns after the UNKNOWN fill. *)
Definition implemented (opcode : Z) : bool :=
  bool_decide (opcode ∈ [0x00; 0x3E; 0x06; 0x0E; 0x78; 0x79; 0x80; 0xC3]).

(** [r'] agrees with [r] on every register other than PC (F, hence all
    four flags, included). *)
Definition same_except_PC (r r' : Registers) : Prop :=
  Registers.A r' = Registers.A r /\ Registers.F r' = Registers.F r /\
  Registers.B r' = Registers.B r /\ Registers.C r' = Registers.C r /\
  Registers.D r' = Registers.D r /\ Registers.E r' = Registers.E r /\
  Registers.H r' = Registers.H r /\ Registers.L r' = Registers.L r /\
  Registers.SP r' = Registers.SP r.

Definition same_flags (r r' : Registers) : Prop :=
  GetFlagZ r' = GetFlagZ r /\ GetFlagN r' = GetFlagN r /\
  GetFlagH r' = GetFlagH r /\ GetFlagC r' = GetFlagC r.

(** The system of the end-to-end scenarios: a fresh [BasicMemory] with
    [program] loaded, and a fresh CPU bound to it
    ([setupCPU] of the processor tests). *)
Definition setupCPU (program : list Z) : CPU BasicMemory :=
  let mem := BasicMemory.NewBasicMemory in
  let mem := fst (BasicMemory.LoadROM mem program) in
  NewCPU mem.

(** The addresses no region decodes: 0x8000-0xBFFF, 0xFE00-0xFF7F, 0xFFFF. *)
Definition unmapped (addr : Z) : Prop :=
  0x8000 <= addr <= 0xBFFF \/ 0xFE00 <= addr <= 0xFF7F \/ addr = 0xFFFF.

(** The addresses some region decodes: ROM, working memory and its echo,
    scratch memory. *)
Definition mapped (addr : Z) : bool :=
  (addr <=? 0x7FFF)
  || (0xC000 <=? addr) && (addr <=? 0xFDFF)
  || (0xFF80 <=? addr) && (addr <=? 0xFFFE).

(** The lowest address that decodes to the same byte as [addr]: an echo
    address stands for the working-memory address 0x2000 below it. *)
Definition base_address (addr : Z) : Z :=
  if (0xE000 <=? addr) && (addr <=? 0xFDFF) then addr - 0x2000 else addr.

(** [data] stored one byte at a time, [m.Write(addr, data[0])],
    [m.Write(addr+1, data[1])], ... *)
Fixpoint write_bytes (m : BasicMemory) (addr : Z) (data : list Z) : BasicMemory :=
  match data with
  | [] => m
  | b :: rest => write_bytes (Write m addr b) (addr + 1) rest
  end.

(** [n] consecutive [cpu.Step()] calls: the CPU they leave and the cycle
    counts they return, in order. *)
Fixpoint run {M : Type} `{Memory M} (n : nat) (cpu : CPU M) : CPU M * list Z :=
  match n with
  | O => (cpu, [])
  | S k =>
      let '(cpu, cycles) := Step cpu in
      let '(cpu, rest) := run k cpu in
      (cpu, cycles :: rest)
  end.

(** The sum of a list of cycle counts. *)
Definition total (cycles : list Z) : Z := foldr Z.add 0 cycles.

(* ===================================================================== *)
(** * Properties *)
(* ===================================================================== *)

(** ** Bit-level facts about the register file *)

Lemma wrap8_small z : is_u8 z -> wrap8 z = z.
Proof. intros Hz. apply Z.mod_small. exact Hz. Qed.

Lemma wrap16_small z : is_u16 z -> wrap16 z = z.
Proof. intros Hz. apply Z.mod_small. exact Hz. Qed.

Lemma wrap8_range z : is_u8 (wrap8 z).
Proof. unfold is_u8, wrap8. apply Z.mod_pos_bound. lia. Qed.

Lemma wrap16_range z : is_u16 (wrap16 z).
Proof. unfold is_u16, wrap16. apply Z.mod_pos_bound. lia. Qed.

(** Splitting a 16-bit word into its bytes and pairing them again. *)
Lemma pair16_split v :
  is_u16 v -> pair16 (wrap8 (Z.shiftr v 8)) (wrap8 v) = v.
Proof.
  intros Hv. unfold pair16, wrap8, wrap16.
  change 256 with (2 ^ 8). change 65536 with (2 ^ 16).
  rewrite <- (Z.mod_small v (2 ^ 16)) at 3 by exact Hv.
  Z.bitblast.
Qed.

Lemma pair16_split_masked v :
  is_u16 v ->
  pair16 (wrap8 (Z.shiftr v 8)) (Z.land (wrap8 v) 0xF0) = Z.land v 0xFFF0.
Proof.
  intros Hv. unfold pair16, wrap8, wrap16.
  change 256 with (2 ^ 8). change 65536 with (2 ^ 16).
  change 0xF0 with (Z.shiftl (Z.ones 4) 4).
  change 0xFFF0 with (Z.shiftl (Z.ones 12) 4).
  rewrite <- (Z.mod_small v (2 ^ 16)) at 3 by exact Hv.
  Z.bitblast.
Qed.

(** Two bytes paired: the little-endian value [lo + 256 * hi]. *)
Lemma pair16_bytes hi lo :
  is_u8 hi -> is_u8 lo -> pair16 hi lo = lo + 256 * hi.
Proof.
  intros Hhi Hlo. unfold pair16, wrap16, is_u8 in *.
  assert (Hdisj : Z.land (Z.shiftl hi 8) lo = 0).
  { rewrite <- (Z.mod_small lo (2 ^ 8)) by (change (2 ^ 8) with 256; lia).
    Z.bitblast. subst. rewrite Z.testbit_neg_r by lia. reflexivity. }
  rewrite Z.mod_small by (rewrite Z.shiftl_mul_pow2 by lia; change (2 ^ 8) with 256; lia).
  rewrite <- Z.lxor_lor, <- Z.add_nocarry_lxor by exact Hdisj.
  rewrite Z.shiftl_mul_pow2 by lia. change (2 ^ 8) with 256. lia.
Qed.

(** A flag mask with the single bit [k] reads bit [k] of F. *)
Lemma land_pow2_eqb f k :
  0 <= k -> (Z.land f (2 ^ k) =? 0) = negb (Z.testbit f k).
Proof.
  intros Hk. destruct (Z.testbit f k) eqn:Hb; simpl.
  - apply Z.eqb_neq. intros Heq.
    assert (Hk' : Z.testbit (Z.land f (2 ^ k)) k = true)
      by (rewrite Z.land_spec, Hb, Z.pow2_bits_true by lia; reflexivity).
    rewrite Heq, Z.bits_0 in Hk'. discriminate.
  - apply Z.eqb_eq. apply Z.bits_inj'. intros n Hn.
    rewrite Z.land_spec, Z.bits_0, Z.pow2_bits_eqb by lia.
    destruct (Z.eqb_spec k n) as [->|]; [rewrite Hb|]; auto using andb_false_r.
Qed.

Lemma GetFlag_testbit k r :
  0 <= k -> GetFlag (2 ^ k) r = Z.testbit (Registers.F r) k.
Proof.
  intros Hk. unfold GetFlag. rewrite land_pow2_eqb by lia. apply negb_involutive.
Qed.

Lemma SetFlag_testbit j k v r :
  0 <= j -> 0 <= k ->
  Z.testbit (Registers.F (SetFlag (2 ^ j) v r)) k =
  if j =? k then v else Z.testbit (Registers.F r) k.
Proof.
  intros Hj Hk. unfold SetFlag.
  destruct v; simpl;
    rewrite ?Z.lor_spec, ?Z.ldiff_spec, Z.pow2_bits_eqb by lia;
    destruct (j =? k); simpl; auto using orb_true_r, orb_false_r, andb_false_r, andb_true_r.
Qed.

(** Reading a flag back after [SetFlag] on a single-bit mask. *)
Lemma GetFlag_SetFlag j k v r :
  0 <= j -> 0 <= k ->
  GetFlag (2 ^ k) (SetFlag (2 ^ j) v r) = if j =? k then v else GetFlag (2 ^ k) r.
Proof.
  intros Hj Hk. rewrite !GetFlag_testbit by lia. apply SetFlag_testbit; lia.
Qed.

Lemma FlagZ_bit : FlagZ = 2 ^ 7. Proof. reflexivity. Qed.
Lemma FlagN_bit : FlagN = 2 ^ 6. Proof. reflexivity. Qed.
Lemma FlagH_bit : FlagH = 2 ^ 5. Proof. reflexivity. Qed.
Lemma FlagC_bit : FlagC = 2 ^ 4. Proof. reflexivity. Qed.

(** [SetFlag] only touches F. *)
Lemma SetFlag_frame flag v r :
  let r' := SetFlag flag v r in
  Registers.A r' = Registers.A r /\ Registers.B r' = Registers.B r /\
  Registers.C r' = Registers.C r /\ Registers.D r' = Registers.D r /\
  Registers.E r' = Registers.E r /\ Registers.H r' = Registers.H r /\
  Registers.L r' = Registers.L r /\ Registers.SP r' = Registers.SP r /\
  Registers.PC r' = Registers.PC r.
Proof. unfold SetFlag. destruct v; simpl; repeat split. Qed.

(** ** Register pairs *)

(** C5.  For every 16-bit [v], writing a register pair and reading it
    back gives [v] for BC, DE and HL, and [v & 0xFFF0] for AF, whatever
    the registers held before. *)
Theorem pair_roundtrip (v : Z) (r : Registers) :
  is_u16 v ->
  BC (SetBC v r) = v /\ DE (SetDE v r) = v /\ HL (SetHL v r) = v /\
  AF (SetAF v r) = Z.land v 0xFFF0.
Proof.
  intros Hv. unfold BC, DE, HL, AF, SetBC, SetDE, SetHL, SetAF. simpl.
  repeat split; auto using pair16_split, pair16_split_masked.
Qed.

Lemma pair_roundtrip_witness :
  BC (SetBC 0x12FF NewRegisters) = 0x12FF /\
  DE (SetDE 0x12FF NewRegisters) = 0x12FF /\
  HL (SetHL 0x12FF NewRegisters) = 0x12FF /\
  AF (SetAF 0x12FF NewRegisters) = Z.land 0x12FF 0xFFF0.
Proof. apply (pair_roundtrip 0x12FF NewRegisters). unfold is_u16. lia. Defined.

(** ** The ADD A,B handler on the register file *)

Lemma nibble_range a : 0 <= Z.land a 0x0F < 16.
Proof.
  change 0x0F with (Z.ones 4). rewrite Z.land_ones by lia.
  apply Z.mod_pos_bound. lia.
Qed.

(** The four [SetFlag] calls of [opADD_A_B], read back flag by flag. *)
Lemma GetFlags_after_four_sets z n h c r :
  let r' := SetFlagC c (SetFlagH h (SetFlagN n (SetFlagZ z r))) in
  GetFlagZ r' = z /\ GetFlagN r' = n /\ GetFlagH r' = h /\ GetFlagC r' = c.
Proof.
  unfold GetFlagZ, GetFlagN, GetFlagH, GetFlagC.
  unfold SetFlagZ, SetFlagN, SetFlagH, SetFlagC.
  rewrite FlagZ_bit, FlagN_bit, FlagH_bit, FlagC_bit. cbv zeta.
  repeat split; rewrite !GetFlag_SetFlag by lia; reflexivity.
Qed.

Section ProcessorProperties.
Context {M : Type} `{Memory M}.

Implicit Types cpu : CPU M.

(** A running step, unfolded once. *)
Lemma Step_running cpu :
  CPU.Halted cpu = false ->
  Step cpu =
  let opcode := Read (CPU.Memory cpu) (Registers.PC (CPU.Registers cpu)) in
  let cpu1 := snd (fetchByte cpu) in
  let instruction := lookupOpcode opcode in
  let cpu2 := Execute instruction cpu1 in
  (CPU.set_TotalCycles
     (wrap64 (CPU.TotalCycles cpu2 + wrap64 (Cycles instruction))) cpu2,
   Cycles instruction).
Proof. intros Hrun. unfold Step. rewrite Hrun. reflexivity. Qed.

Lemma opADD_A_B_registers cpu :
  let a := Registers.A (CPU.Registers cpu) in
  let b := Registers.B (CPU.Registers cpu) in
  is_u8 a -> is_u8 b ->
  let r' := CPU.Registers (opADD_A_B cpu) in
  Registers.A r' = (a + b) mod 256 /\
  GetFlagZ r' = ((a + b) mod 256 =? 0) /\
  GetFlagN r' = false /\
  GetFlagH r' = (Z.land a 0x0F + Z.land b 0x0F >? 0x0F) /\
  GetFlagC r' = (a + b >? 255).
Proof.
  intros a b Ha Hb r'.
  assert (Hh : wrap8 (Z.land a 0x0F + Z.land b 0x0F) = Z.land a 0x0F + Z.land b 0x0F).
  { pose proof (nibble_range a). pose proof (nibble_range b).
    apply Z.mod_small. lia. }
  assert (Hc : wrap16 (a + b) = a + b).
  { unfold is_u8 in *. apply Z.mod_small. lia. }
  subst r'. unfold opADD_A_B. fold a b. cbv zeta. rewrite Hh, Hc.
  match goal with
  | |- context [SetFlagC ?c (SetFlagH ?h (SetFlagN ?n (SetFlagZ ?z ?r)))] =>
      destruct (GetFlags_after_four_sets z n h c r) as (HZ & HN & HH & HC);
      set (r4 := SetFlagC c (SetFlagH h (SetFlagN n (SetFlagZ z r)))) in *
  end.
  cbn [CPU.set_Registers CPU.Registers].
  change (GetFlagZ (Registers.set_A (wrap8 (a + b)) r4)) with (GetFlagZ r4).
  change (GetFlagN (Registers.set_A (wrap8 (a + b)) r4)) with (GetFlagN r4).
  change (GetFlagH (Registers.set_A (wrap8 (a + b)) r4)) with (GetFlagH r4).
  change (GetFlagC (Registers.set_A (wrap8 (a + b)) r4)) with (GetFlagC r4).
  rewrite HZ, HN, HH, HC. repeat split.
Qed.

(** *** The dispatch table *)

Lemma lookupOpcode_ADD_A_B :
  lookupOpcode 0x80 = mkOpcode "ADD A, B" 1 4 opADD_A_B.
Proof. reflexivity. Qed.

Lemma lookupOpcode_JP_nn :
  lookupOpcode 0xC3 = mkOpcode "JP nn" 3 16 opJP_nn.
Proof. reflexivity. Qed.

(** A property of the UNKNOWN descriptors and of the eight assigned
    ones holds of every slot of the table. *)
Lemma opcodeTable_Forall (P : Opcode -> Prop) :
  (forall i, P (unknownOpcode i)) ->
  P (mkOpcode "NOP" 1 4 opNOP) ->
  P (mkOpcode "LD A, n" 2 8 opLD_A_n) ->
  P (mkOpcode "LD B, n" 2 8 opLD_B_n) ->
  P (mkOpcode "LD C, n" 2 8 opLD_C_n) ->
  P (mkOpcode "LD A, B" 1 4 opLD_A_B) ->
  P (mkOpcode "LD A, C" 1 4 opLD_A_C) ->
  P (mkOpcode "ADD A, B" 1 4 opADD_A_B) ->
  P (mkOpcode "JP nn" 3 16 opJP_nn) ->
  Forall P opcodeTable.
Proof.
  intros Hunk Hnop Han Hbn Hcn Hab Hac Hadd Hjp.
  unfold opcodeTable, initOpcodes, set_entry. cbv zeta.
  repeat (apply Forall_insert; [|assumption]).
  apply Forall_fmap, Forall_forall. intros i _. apply Hunk.
Qed.

Lemma lookupOpcode_Forall (P : Opcode -> Prop) (opcode : Z) :
  P (unknownOpcode 0) -> Forall P opcodeTable -> P (lookupOpcode opcode).
Proof.
  intros Hdef Hall. unfold lookupOpcode.
  destruct (opcodeTable !! Z.to_nat opcode) as [o|] eqn:Hlk.
  - rewrite (list_lookup_total_correct _ _ _ Hlk).
    eapply Forall_lookup_1; eassumption.
  - rewrite list_lookup_total_alt, Hlk. exact Hdef.
Qed.

Lemma opcodeTable_length : length opcodeTable = 256%nat.
Proof. reflexivity. Qed.

(** Every other byte still holds the UNKNOWN descriptor of its slot. *)
Lemma lookupOpcode_unknown (opcode : Z) :
  is_u8 opcode -> implemented opcode = false ->
  lookupOpcode opcode = unknownOpcode opcode.
Proof.
  intros Hop Himpl. unfold implemented in Himpl.
  apply bool_decide_eq_false in Himpl.
  rewrite !not_elem_of_cons in Himpl.
  destruct Himpl as (H0 & H1 & H2 & H3 & H4 & H5 & H6 & H7 & _).
  unfold is_u8 in Hop.
  unfold lookupOpcode, opcodeTable, initOpcodes, set_entry. cbv zeta.
  rewrite !list_lookup_total_insert_ne by lia.
  rewrite (list_lookup_total_fmap (fun i : nat => unknownOpcode (Z.of_nat i)))
    by (rewrite length_seq; lia).
  rewrite lookup_total_seq_lt by lia.
  f_equal. lia.
Qed.

(** C1.  ADD A,B (opcode 0x80): for all bytes [a], [b] and any prior F,
    a running step that fetches 0x80 with A = a and B = b costs 4
    cycles, stores [(a+b) mod 256] in A and leaves
    Z = ((a+b) mod 256 == 0), N = false,
    H = ((a&0x0F)+(b&0x0F) > 0x0F), C = (a+b > 255). *)
Theorem ADD_A_B_flag_law cpu (a b : Z) :
  is_u8 a -> is_u8 b ->
  CPU.Halted cpu = false ->
  Read (CPU.Memory cpu) (Registers.PC (CPU.Registers cpu)) = 0x80 ->
  Registers.A (CPU.Registers cpu) = a ->
  Registers.B (CPU.Registers cpu) = b ->
  let r' := CPU.Registers (fst (Step cpu)) in
  snd (Step cpu) = 4 /\
  Registers.A r' = (a + b) mod 256 /\
  GetFlagZ r' = ((a + b) mod 256 =? 0) /\
  GetFlagN r' = false /\
  GetFlagH r' = (Z.land a 0x0F + Z.land b 0x0F >? 0x0F) /\
  GetFlagC r' = (a + b >? 255).
Proof.
  intros Ha Hb Hrun Hop HA HB.
  rewrite (Step_running cpu Hrun), Hop. cbv zeta.
  rewrite lookupOpcode_ADD_A_B.
  cbn [fst snd Execute Cycles CPU.set_TotalCycles CPU.Registers].
  split; [reflexivity|].
  subst a b.
  apply (opADD_A_B_registers (snd (fetchByte cpu))); assumption.
Qed.
(** *** Unassigned opcodes *)

Lemma same_except_PC_flags r r' : same_except_PC r r' -> same_flags r r'.
Proof.
  intros (_ & HF & _).
  unfold same_flags, GetFlagZ, GetFlagN, GetFlagH, GetFlagC, GetFlag.
  rewrite HF. repeat split.
Qed.

(** C2.  A running step that fetches a byte outside the implemented
    set returns 4, moves PC to the next address of the 16-bit address
    space (PC + 1 whenever PC is below 0xFFFF) and leaves A, F, B, C,
    D, E, H, L, SP, the four flags and the memory as they were. *)
Theorem Step_unimplemented_opcode cpu (opcode : Z) :
  is_u8 opcode ->
  implemented opcode = false ->
  CPU.Halted cpu = false ->
  Read (CPU.Memory cpu) (Registers.PC (CPU.Registers cpu)) = opcode ->
  let r := CPU.Registers cpu in
  let cpu' := fst (Step cpu) in
  let r' := CPU.Registers cpu' in
  snd (Step cpu) = 4 /\
  Registers.PC r' = wrap16 (Registers.PC r + 1) /\
  (0 <= Registers.PC r < 0xFFFF -> Registers.PC r' = Registers.PC r + 1) /\
  same_except_PC r r' /\
  same_flags r r' /\
  CPU.Memory cpu' = CPU.Memory cpu /\
  CPU.Halted cpu' = false.
Proof.
  intros Hop Himpl Hrun Hrd r cpu' r'.
  subst cpu' r'. rewrite (Step_running cpu Hrun), Hrd. cbv zeta.
  rewrite (lookupOpcode_unknown opcode Hop Himpl).
  cbn [fst snd Execute Cycles unknownOpcode opUnknown fetchByte
       CPU.set_TotalCycles CPU.set_Registers CPU.Registers CPU.Memory
       CPU.Halted Registers.set_PC Registers.PC].
  assert (Hsame : same_except_PC r
            (Registers.set_PC (wrap16 (Registers.PC r + 1)) r))
    by (unfold same_except_PC; cbn; repeat split).
  split; [reflexivity|]. split; [reflexivity|].
  split; [intros Hpc; fold r; apply wrap16_small; unfold is_u16; lia|].
  split; [exact Hsame|].
  split; [exact (same_except_PC_flags _ _ Hsame)|].
  split; [reflexivity|exact Hrun].
Qed.

(** *** The halted core *)

(** C9.  A halted CPU steps to itself: the call returns 4 and the
    registers (PC included), the flags, the memory, the halted state
    and the total-cycles counter are those before the call. *)
Theorem Step_halted cpu :
  CPU.Halted cpu = true -> Step cpu = (cpu, 4).
Proof. intros Hhalt. unfold Step. rewrite Hhalt. reflexivity. Qed.

(** *** JP nn *)

Lemma Step_JP_nn cpu :
  CPU.Halted cpu = false ->
  Read (CPU.Memory cpu) (Registers.PC (CPU.Registers cpu)) = 0xC3 ->
  let r := CPU.Registers cpu in
  let low := Read (CPU.Memory cpu) (wrap16 (Registers.PC r + 1)) in
  let high := Read (CPU.Memory cpu) (wrap16 (wrap16 (Registers.PC r + 1) + 1)) in
  let cpu' := fst (Step cpu) in
  let r' := CPU.Registers cpu' in
  snd (Step cpu) = 16 /\
  Registers.PC r' = pair16 high low /\
  (is_u8 low -> is_u8 high -> Registers.PC r' = low + 256 * high) /\
  same_except_PC r r' /\
  same_flags r r' /\
  CPU.Memory cpu' = CPU.Memory cpu.
Proof.
  intros Hrun Hrd r low high cpu' r'.
  subst cpu' r'. rewrite (Step_running cpu Hrun), Hrd. cbv zeta.
  rewrite lookupOpcode_JP_nn.
  cbn [fst snd Execute Cycles opJP_nn fetchWord fetchByte
       CPU.set_TotalCycles CPU.set_Registers CPU.Registers CPU.Memory
       CPU.Halted Registers.set_PC Registers.PC].
  fold r. fold low. fold high.
  assert (Hsame : same_except_PC r (Registers.set_PC (pair16 high low) r))
    by (unfold same_except_PC; cbn; repeat split).
  split; [reflexivity|]. split; [reflexivity|].
  split; [intros Hl Hh; apply pair16_bytes; assumption|].
  split; [exact Hsame|].
  split; [exact (same_except_PC_flags _ _ Hsame)|reflexivity].
Qed.
End ProcessorProperties.

(* ===================================================================== *)
(** ** The address space *)
(* ===================================================================== *)

(** Settles the range tests of the address decode. *)
Ltac decode :=
  repeat match goal with
    | |- context [?a <=? ?b] => destruct (Z.leb_spec a b); try lia
    | |- context [?a >? ?b] => rewrite (Z.gtb_ltb a b)
    | |- context [?a <? ?b] => destruct (Z.ltb_spec a b); try lia
    end; cbn [andb orb].

Lemma index_assign_eq a i v :
  0 <= i < Z.of_nat (length a) -> index (assign a i v) i = v.
Proof.
  intros Hi. unfold index, assign. apply list_lookup_total_insert_eq. lia.
Qed.

Lemma index_assign_ne a i j v :
  0 <= i -> 0 <= j -> i <> j -> index (assign a i v) j = index a j.
Proof.
  intros Hi Hj Hne. unfold index, assign. apply list_lookup_total_insert_ne. lia.
Qed.

Lemma NewBasicMemory_wf : BasicMemory.wf BasicMemory.NewBasicMemory.
Proof.
  unfold BasicMemory.wf, BasicMemory.NewBasicMemory. cbn [BasicMemory.rom BasicMemory.wram BasicMemory.hram].
  rewrite !length_replicate, !Z2Nat.id by (unfold BasicMemory.ROM_LEN, BasicMemory.WRAM_LEN, BasicMemory.HRAM_LEN; lia).
  repeat split; apply Forall_replicate; unfold is_u8; lia.
Qed.

Lemma Write_wf m addr val :
  BasicMemory.wf m -> is_u8 val -> BasicMemory.wf (BasicMemory.Write m addr val).
Proof.
  intros (Hr & Hw & Hh & Fr & Fw & Fh) Hv.
  unfold BasicMemory.Write, BasicMemory.wf, assign.
  repeat match goal with |- context [if ?c then _ else _] => destruct c end;
    cbn [BasicMemory.rom BasicMemory.wram BasicMemory.hram];
    rewrite ?length_insert; repeat split; auto using Forall_insert.
Qed.

(** C3 (amended).  For every offset [k] below 0x1E00 and every [x], a
    write at 0xC000+k is read back at 0xE000+k and a write at 0xE000+k
    is read back at 0xC000+k. *)
Theorem echo_mirror (m : BasicMemory) (k x : Z) :
  BasicMemory.wf m ->
  0 <= k < 0x1E00 ->
  Read (Write m (0xC000 + k) x) (0xE000 + k) = x /\
  Read (Write m (0xE000 + k) x) (0xC000 + k) = x.
Proof.
  intros (_ & Hw & _) Hk. unfold BasicMemory.WRAM_LEN in Hw.
  cbn [Read Write BasicMemory_Memory].
  unfold BasicMemory.Read, BasicMemory.Write. decode.
  cbn [BasicMemory.wram].
  replace (0xC000 + k - 0xC000) with k by lia.
  replace (0xE000 + k - 0xE000) with k by lia.
  split; apply index_assign_eq; lia.
Qed.

Lemma echo_mirror_witness :
  Read (Write BasicMemory.NewBasicMemory (0xC000 + 0x100) 0x55) (0xE000 + 0x100) = 0x55 /\
  Read (Write BasicMemory.NewBasicMemory (0xE000 + 0x100) 0x55) (0xC000 + 0x100) = 0x55.
Proof.
  apply (echo_mirror BasicMemory.NewBasicMemory 0x100 0x55).
  - exact NewBasicMemory_wf.
  - lia.
Defined.

(** C3 as stated fails at the last offset of its range: 0xE000+0x1E00 is
    0xFE00, past the end of the echo window 0xE000-0xFDFF, where reads
    give 0xFF and writes are dropped. *)
Lemma echo_mirror_fails_at_0x1E00 :
  let m := BasicMemory.NewBasicMemory in
  let k := 0x1E00 in
  let x := 0x55 in
  Read (Write m (0xC000 + k) x) (0xE000 + k) <> x /\
  Read (Write m (0xE000 + k) x) (0xC000 + k) <> x.
Proof. vm_compute. split; discriminate. Qed.

(** C6.  At an unmapped address a read gives 0xFF and a write returns
    the memory it was given, so every later read, at any address, is
    what it would have been without the write. *)
Theorem unmapped_read_write (m : BasicMemory) (addr : Z) :
  unmapped addr ->
  Read m addr = 0xFF /\
  (forall val, Write m addr val = m) /\
  (forall val a, Read (Write m addr val) a = Read m a).
Proof.
  intros Hu.
  assert (Hw : forall val, Write m addr val = m).
  { intros val. cbn [Write BasicMemory_Memory]. unfold BasicMemory.Write.
    destruct Hu as [Hu|[Hu|Hu]]; decode; reflexivity. }
  split; [|split].
  - cbn [Read BasicMemory_Memory]. unfold BasicMemory.Read.
    destruct Hu as [Hu|[Hu|Hu]]; decode; reflexivity.
  - exact Hw.
  - intros val a. rewrite Hw. reflexivity.
Qed.

Lemma unmapped_read_write_witness :
  Read BasicMemory.NewBasicMemory 0xFE00 = 0xFF /\
  (forall val, Write BasicMemory.NewBasicMemory 0xFE00 val = BasicMemory.NewBasicMemory) /\
  (forall val a, Read (Write BasicMemory.NewBasicMemory 0xFE00 val) a =
                 Read BasicMemory.NewBasicMemory a).
Proof.
  apply (unmapped_read_write BasicMemory.NewBasicMemory 0xFE00).
  unfold unmapped. lia.
Defined.

(** ** LoadROM *)

Lemma copy_fits (dst src : list Z) :
  (length src <= length dst)%nat ->
  copy dst src = src ++ drop (length src) dst.
Proof. intros Hle. unfold copy. rewrite take_ge by lia. reflexivity. Qed.

Lemma copy_length (dst src : list Z) : length (copy dst src) = length dst.
Proof.
  unfold copy. rewrite length_app, length_take, length_drop. lia.
Qed.

Lemma copy_nil (dst : list Z) : copy dst [] = dst.
Proof. unfold copy. rewrite take_nil. reflexivity. Qed.

Lemma LoadROM_ok (m : BasicMemory) (data : list Z) :
  Z.of_nat (length data) <= BasicMemory.ROM_LEN ->
  BasicMemory.LoadROM m data =
  (BasicMemory.mk (copy (BasicMemory.rom m) data)
     (BasicMemory.wram m) (BasicMemory.hram m), None).
Proof.
  intros Hle. unfold BasicMemory.LoadROM.
  rewrite Z.gtb_ltb. destruct (Z.ltb_spec BasicMemory.ROM_LEN (Z.of_nat (length data))); [lia|reflexivity].
Qed.

Lemma LoadROM_too_large (m : BasicMemory) (data : list Z) :
  BasicMemory.ROM_LEN < Z.of_nat (length data) ->
  BasicMemory.LoadROM m data =
  (m, Some (BasicMemory.RomTooLarge (Z.of_nat (length data)) BasicMemory.ROM_LEN)).
Proof.
  intros Hgt. unfold BasicMemory.LoadROM.
  rewrite Z.gtb_ltb. destruct (Z.ltb_spec BasicMemory.ROM_LEN (Z.of_nat (length data))); [reflexivity|lia].
Qed.

Lemma LoadROM_wf (m : BasicMemory) (data : list Z) :
  BasicMemory.wf m -> Forall is_u8 data ->
  BasicMemory.wf (fst (BasicMemory.LoadROM m data)).
Proof.
  intros Hwf Hdata. unfold BasicMemory.LoadROM.
  destruct (Z.of_nat (length data) >? BasicMemory.ROM_LEN); [exact Hwf|].
  destruct Hwf as (Hr & Hw & Hh & Fr & Fw & Fh).
  unfold BasicMemory.wf. cbn [fst BasicMemory.rom BasicMemory.wram BasicMemory.hram].
  rewrite copy_length. repeat split; try assumption.
  unfold copy. apply Forall_app. split.
  - apply Forall_take. exact Hdata.
  - apply Forall_drop. exact Fr.
Qed.

(** C7.  [LoadROM] fails exactly when the input is longer than 32768
    bytes; a failed load returns the address space it was given, so a
    load of at most 32768 bytes after it succeeds; a successful load
    puts byte [i] of the input at address [i], from address 0x0000. *)
Theorem LoadROM_error_iff (m : BasicMemory) (data : list Z) :
  (snd (BasicMemory.LoadROM m data) <> None <-> 32768 < Z.of_nat (length data)) /\
  (32768 < Z.of_nat (length data) ->
     fst (BasicMemory.LoadROM m data) = m /\
     forall data', Z.of_nat (length data') <= 32768 ->
       snd (BasicMemory.LoadROM (fst (BasicMemory.LoadROM m data)) data') = None) /\
  (Z.of_nat (length data) <= 32768 -> BasicMemory.wf m ->
     snd (BasicMemory.LoadROM m data) = None /\
     forall i, 0 <= i < Z.of_nat (length data) ->
       Read (fst (BasicMemory.LoadROM m data)) i = index data i).
Proof.
  change 32768 with BasicMemory.ROM_LEN.
  split; [|split].
  - destruct (Z.lt_ge_cases BasicMemory.ROM_LEN (Z.of_nat (length data))) as [Hgt|Hle].
    + rewrite (LoadROM_too_large m data Hgt). cbn [snd]. split; [intros _; exact Hgt|discriminate].
    + rewrite (LoadROM_ok m data Hle). cbn [snd]. split; [congruence|lia].
  - intros Hgt. rewrite (LoadROM_too_large m data Hgt). cbn [fst].
    split; [reflexivity|].
    intros data' Hle. rewrite (LoadROM_ok m data' Hle). reflexivity.
  - intros Hle (Hr & _). rewrite (LoadROM_ok m data Hle). cbn [fst snd].
    split; [reflexivity|].
    intros i Hi. unfold BasicMemory.ROM_LEN in *.
    cbn [Read BasicMemory_Memory]. unfold BasicMemory.Read. decode.
    cbn [BasicMemory.rom]. unfold index.
    rewrite copy_fits by lia.
    apply lookup_total_app_l. lia.
Qed.

Lemma LoadROM_error_iff_witness :
  let m := BasicMemory.NewBasicMemory in
  let big := replicate (Z.to_nat 32769) 0xAA in
  let prog := [0x00; 0x3E; 0x42; 0xC3] in
  (fst (BasicMemory.LoadROM m big) = m /\
   forall data', Z.of_nat (length data') <= 32768 ->
     snd (BasicMemory.LoadROM (fst (BasicMemory.LoadROM m big)) data') = None) /\
  (snd (BasicMemory.LoadROM m prog) = None /\
   forall i, 0 <= i < Z.of_nat (length prog) ->
     Read (fst (BasicMemory.LoadROM m prog)) i = index prog i).
Proof.
  intros m big prog. split.
  - apply (proj1 (proj2 (LoadROM_error_iff m big))).
    unfold big. rewrite length_replicate, Z2Nat.id; lia.
  - apply (proj2 (proj2 (LoadROM_error_iff m prog))).
    + cbn. lia.
    + exact NewBasicMemory_wf.
Defined.

(** C10.  A load of at most 32768 bytes succeeds and writes ROM indices
    [0 .. len-1] only: there the ROM holds the input, from [len] to
    32767 it holds what it held before, and working memory and scratch
    memory are untouched; an empty load changes nothing. *)
Theorem LoadROM_frame (m : BasicMemory) (data : list Z) :
  Z.of_nat (length data) <= 32768 ->
  BasicMemory.wf m ->
  let m' := fst (BasicMemory.LoadROM m data) in
  snd (BasicMemory.LoadROM m data) = None /\
  (forall i, 0 <= i < Z.of_nat (length data) ->
     index (BasicMemory.rom m') i = index data i) /\
  (forall i, Z.of_nat (length data) <= i <= 32767 ->
     index (BasicMemory.rom m') i = index (BasicMemory.rom m) i) /\
  length (BasicMemory.rom m') = length (BasicMemory.rom m) /\
  BasicMemory.wram m' = BasicMemory.wram m /\
  BasicMemory.hram m' = BasicMemory.hram m /\
  BasicMemory.LoadROM m [] = (m, None).
Proof.
  change 32768 with BasicMemory.ROM_LEN.
  intros Hle (Hr & _) m'. subst m'.
  rewrite (LoadROM_ok m data Hle). cbn [fst snd BasicMemory.rom BasicMemory.wram BasicMemory.hram].
  unfold BasicMemory.ROM_LEN in *.
  split; [reflexivity|]. split; [|split; [|split; [|split; [|split]]]].
  - intros i Hi. unfold index. rewrite copy_fits by lia.
    apply lookup_total_app_l. lia.
  - intros i Hi. unfold index. rewrite copy_fits by lia.
    rewrite lookup_total_app_r by lia. rewrite lookup_total_drop.
    f_equal. lia.
  - apply copy_length.
  - reflexivity.
  - reflexivity.
  - unfold BasicMemory.LoadROM. cbn [length]. cbn. rewrite copy_nil.
    destruct m; reflexivity.
Qed.

Lemma LoadROM_frame_witness :
  let m := Write (Write BasicMemory.NewBasicMemory 0x0004 0x77) 0xC000 0x99 in
  let data := [0x00; 0x3E; 0x42; 0xC3] in
  let m' := fst (BasicMemory.LoadROM m data) in
  snd (BasicMemory.LoadROM m data) = None /\
  (forall i, 0 <= i < Z.of_nat (length data) ->
     index (BasicMemory.rom m') i = index data i) /\
  (forall i, Z.of_nat (length data) <= i <= 32767 ->
     index (BasicMemory.rom m') i = index (BasicMemory.rom m) i) /\
  length (BasicMemory.rom m') = length (BasicMemory.rom m) /\
  BasicMemory.wram m' = BasicMemory.wram m /\
  BasicMemory.hram m' = BasicMemory.hram m /\
  BasicMemory.LoadROM m [] = (m, None).
Proof.
  intros m data.
  apply (LoadROM_frame m data).
  - cbn. lia.
  - unfold m. apply Write_wf; [apply Write_wf|];
      [exact NewBasicMemory_wf|unfold is_u8; lia|unfold is_u8; lia].
Defined.

(* ===================================================================== *)
(** ** Steps on a concrete system *)
(* ===================================================================== *)

Lemma ADD_A_B_flag_law_witness :
  let mem := fst (BasicMemory.LoadROM BasicMemory.NewBasicMemory [0x80]) in
  let regs := Registers.set_B 0x01 (Registers.set_A 0xFF (Registers.set_F 0x40 NewRegisters)) in
  let cpu := CPU.mk regs mem false 0 in
  let r' := CPU.Registers (fst (Step cpu)) in
  snd (Step cpu) = 4 /\
  Registers.A r' = (0xFF + 0x01) mod 256 /\
  GetFlagZ r' = ((0xFF + 0x01) mod 256 =? 0) /\
  GetFlagN r' = false /\
  GetFlagH r' = (Z.land 0xFF 0x0F + Z.land 0x01 0x0F >? 0x0F) /\
  GetFlagC r' = (0xFF + 0x01 >? 255).
Proof.
  intros mem regs cpu.
  apply (ADD_A_B_flag_law cpu 0xFF 0x01).
  - unfold is_u8. lia.
  - unfold is_u8. lia.
  - reflexivity.
  - vm_compute. reflexivity.
  - reflexivity.
  - reflexivity.
Defined.

Lemma Step_unimplemented_opcode_witness :
  let cpu := setupCPU [0xD3; 0x00] in
  let r := CPU.Registers cpu in
  let cpu' := fst (Step cpu) in
  let r' := CPU.Registers cpu' in
  snd (Step cpu) = 4 /\
  Registers.PC r' = wrap16 (Registers.PC r + 1) /\
  (0 <= Registers.PC r < 0xFFFF -> Registers.PC r' = Registers.PC r + 1) /\
  same_except_PC r r' /\
  same_flags r r' /\
  CPU.Memory cpu' = CPU.Memory cpu /\
  CPU.Halted cpu' = false.
Proof.
  intros cpu.
  apply (Step_unimplemented_opcode cpu 0xD3).
  - unfold is_u8. lia.
  - vm_compute. reflexivity.
  - reflexivity.
  - vm_compute. reflexivity.
Defined.

Lemma Step_halted_witness :
  let cpu := CPU.mk NewRegisters (fst (BasicMemory.LoadROM BasicMemory.NewBasicMemory [0x3E; 0x05])) true 0 in
  Step cpu = (cpu, 4).
Proof.
  intros cpu. apply (Step_halted cpu). reflexivity.
Defined.

(** C8.  A running step that fetches 0xC3 reads the next two bytes, low
    byte first, sets PC to [low + 256 * high], returns 16 and leaves
    every other register, the flags and the memory as they were; on a
    fresh system loaded with [0xC3, 0x50, 0x01] one step returns 16 and
    PC becomes 0x0150. *)
Theorem JP_nn_jump :
  (forall (M : Type) (HM : Memory M) (cpu : CPU M),
     CPU.Halted cpu = false ->
     Read (CPU.Memory cpu) (Registers.PC (CPU.Registers cpu)) = 0xC3 ->
     let r := CPU.Registers cpu in
     let low := Read (CPU.Memory cpu) (wrap16 (Registers.PC r + 1)) in
     let high := Read (CPU.Memory cpu) (wrap16 (wrap16 (Registers.PC r + 1) + 1)) in
     let cpu' := fst (Step cpu) in
     let r' := CPU.Registers cpu' in
     snd (Step cpu) = 16 /\
     Registers.PC r' = pair16 high low /\
     (is_u8 low -> is_u8 high -> Registers.PC r' = low + 256 * high) /\
     same_except_PC r r' /\
     same_flags r r' /\
     CPU.Memory cpu' = CPU.Memory cpu) /\
  (let cpu := setupCPU [0xC3; 0x50; 0x01] in
   snd (Step cpu) = 16 /\
   Registers.PC (CPU.Registers (fst (Step cpu))) = 0x0150).
Proof.
  split.
  - intros M HM cpu. apply Step_JP_nn.
  - vm_compute. split; reflexivity.
Qed.

Lemma JP_nn_jump_witness :
  let cpu := setupCPU [0xC3; 0x50; 0x01] in
  let r := CPU.Registers cpu in
  let cpu' := fst (Step cpu) in
  let r' := CPU.Registers cpu' in
  snd (Step cpu) = 16 /\
  Registers.PC r' = pair16 0x01 0x50 /\
  (is_u8 0x50 -> is_u8 0x01 -> Registers.PC r' = 0x50 + 256 * 0x01) /\
  same_except_PC r r' /\
  same_flags r r' /\
  CPU.Memory cpu' = CPU.Memory cpu.
Proof.
  intros cpu.
  apply (proj1 JP_nn_jump BasicMemory BasicMemory_Memory cpu).
  - reflexivity.
  - vm_compute. reflexivity.
Defined.

(* ===================================================================== *)
(** ** The low nibble of F *)
(* ===================================================================== *)

Lemma low_nibble_SetAF value r : low_nibble (SetAF value r) = 0.
Proof.
  unfold low_nibble, SetAF. cbn.
  rewrite <- Z.land_assoc. change (Z.land 240 15) with 0. apply Z.land_0_r.
Qed.

Lemma low_nibble_SetFlags z n h c r : low_nibble (SetFlags z n h c r) = 0.
Proof. destruct z, n, h, c; reflexivity. Qed.

(** [SetFlag] does not mask: it leaves the low nibble as it finds it,
    provided the mask itself has no low bit. *)
Lemma low_nibble_SetFlag flag value r :
  Z.land flag 0x0F = 0 -> low_nibble (SetFlag flag value r) = low_nibble r.
Proof.
  intros Hflag. unfold low_nibble, SetFlag. destruct value; cbn.
  - rewrite Z.land_lor_distr_l, Hflag. apply Z.lor_0_r.
  - apply Z.bits_inj'. intros n Hn.
    rewrite !Z.land_spec, Z.ldiff_spec.
    assert (Hbit : Z.testbit flag n && Z.testbit 15 n = false)
      by (rewrite <- Z.land_spec, Hflag; apply Z.bits_0).
    destruct (Z.testbit flag n), (Z.testbit 15 n), (Z.testbit (Registers.F r) n);
      simpl in *; congruence.
Qed.

Lemma flag_mask_high flag :
  flag ∈ [FlagZ; FlagN; FlagH; FlagC] -> Z.land flag 0x0F = 0.
Proof.
  rewrite !elem_of_cons, elem_of_nil.
  intros [->|[->|[->|[->|[]]]]]; reflexivity.
Qed.

Section HandlersKeepLowNibble.
Context {M : Type} `{Memory M}.

Implicit Types cpu : CPU M.

Lemma low_nibble_opADD_A_B cpu :
  low_nibble (CPU.Registers (opADD_A_B cpu)) = low_nibble (CPU.Registers cpu).
Proof.
  unfold opADD_A_B. cbv zeta. cbn [CPU.set_Registers CPU.Registers].
  match goal with
  | |- low_nibble (Registers.set_A ?v ?r) = _ =>
      change (low_nibble (Registers.set_A v r)) with (low_nibble r)
  end.
  unfold SetFlagZ, SetFlagN, SetFlagH, SetFlagC.
  rewrite !low_nibble_SetFlag by reflexivity. reflexivity.
Qed.

Lemma low_nibble_Execute (opcode : Z) cpu :
  low_nibble (CPU.Registers (Execute (lookupOpcode opcode) cpu)) =
  low_nibble (CPU.Registers cpu).
Proof.
  revert cpu.
  apply (lookupOpcode_Forall
           (fun o => forall cpu, low_nibble (CPU.Registers (Execute o cpu)) =
                                 low_nibble (CPU.Registers cpu))).
  - reflexivity.
  - apply opcodeTable_Forall; try reflexivity.
    exact low_nibble_opADD_A_B.
Qed.

Lemma low_nibble_Step cpu :
  low_nibble (CPU.Registers (fst (Step cpu))) = low_nibble (CPU.Registers cpu).
Proof.
  destruct (CPU.Halted cpu) eqn:Hh.
  - unfold Step. rewrite Hh. reflexivity.
  - rewrite (Step_running cpu Hh). cbv zeta. cbn [fst CPU.set_TotalCycles CPU.Registers].
    rewrite low_nibble_Execute. reflexivity.
Qed.
End HandlersKeepLowNibble.

(** C4 (amended).  The low nibble of F is zero in the initial register
    state and stays zero along every path by which the code writes F:
    [SetAF] masks the stored byte with 0xF0 and [SetFlags] rebuilds F
    from the four flag bits, so the low nibble is zero after either,
    whatever F held; [SetFlag] with one of the four flag masks, hence
    [SetFlagZ], [SetFlagN], [SetFlagH] and [SetFlagC], and every opcode
    handler, hence [Step], keep a zero low nibble zero. *)
Theorem F_low_nibble_invariant :
  low_nibble NewRegisters = 0 /\
  (forall value r, low_nibble (SetAF value r) = 0) /\
  (forall z n h c r, low_nibble (SetFlags z n h c r) = 0) /\
  (forall flag value r,
     flag ∈ [FlagZ; FlagN; FlagH; FlagC] ->
     low_nibble r = 0 -> low_nibble (SetFlag flag value r) = 0) /\
  (forall value r,
     low_nibble r = 0 ->
     low_nibble (SetFlagZ value r) = 0 /\ low_nibble (SetFlagN value r) = 0 /\
     low_nibble (SetFlagH value r) = 0 /\ low_nibble (SetFlagC value r) = 0) /\
  (forall (M : Type) (HM : Memory M) (cpu : CPU M) (opcode : Z),
     low_nibble (CPU.Registers cpu) = 0 ->
     low_nibble (CPU.Registers (Execute (lookupOpcode opcode) cpu)) = 0) /\
  (forall (M : Type) (HM : Memory M) (cpu : CPU M),
     low_nibble (CPU.Registers cpu) = 0 ->
     low_nibble (CPU.Registers (fst (Step cpu))) = 0).
Proof.
  split; [reflexivity|].
  split; [exact low_nibble_SetAF|].
  split; [exact low_nibble_SetFlags|].
  split.
  { intros flag value r Hflag Hr.
    rewrite low_nibble_SetFlag by (apply flag_mask_high; exact Hflag). exact Hr. }
  split.
  { intros value r Hr. unfold SetFlagZ, SetFlagN, SetFlagH, SetFlagC.
    rewrite !low_nibble_SetFlag by reflexivity. auto. }
  split.
  - intros M HM cpu opcode Hr. rewrite low_nibble_Execute. exact Hr.
  - intros M HM cpu Hr. rewrite low_nibble_Step. exact Hr.
Qed.

Lemma F_low_nibble_invariant_witness :
  let r := SetAF 0x12FF NewRegisters in
  let cpu := setupCPU [0x3E; 0xFF; 0x06; 0x01; 0x80] in
  low_nibble (SetFlag FlagC true r) = 0 /\
  (low_nibble (SetFlagZ false r) = 0 /\ low_nibble (SetFlagN false r) = 0 /\
   low_nibble (SetFlagH false r) = 0 /\ low_nibble (SetFlagC false r) = 0) /\
  low_nibble (CPU.Registers (Execute (lookupOpcode 0x80) cpu)) = 0 /\
  low_nibble (CPU.Registers (fst (Step cpu))) = 0.
Proof.
  intros r cpu.
  destruct F_low_nibble_invariant as (_ & _ & _ & Hflag & Hflags & Hexec & Hstep).
  split; [|split; [|split]].
  - apply (Hflag FlagC true r); [|reflexivity].
    rewrite !elem_of_cons. auto.
  - apply (Hflags false r). reflexivity.
  - apply (Hexec BasicMemory BasicMemory_Memory cpu 0x80). reflexivity.
  - apply (Hstep BasicMemory BasicMemory_Memory cpu). reflexivity.
Defined.

(** C4 as stated fails: F is a plain field and only [SetAF] masks what
    it stores.  An assignment to the field keeps its low bits, [SetFlag]
    with a mask that has a low bit sets it from the initial state, and
    the flag setters leave a non-zero low nibble in place. *)
Lemma F_low_nibble_not_masked :
  low_nibble (Registers.set_F 0x0F NewRegisters) <> 0 /\
  low_nibble (SetFlag 0x01 true NewRegisters) <> 0 /\
  low_nibble (SetFlagZ true (Registers.set_F 0x0F NewRegisters)) <> 0.
Proof. vm_compute. repeat split; discriminate. Qed.

(* ===================================================================== *)
(** ** Steps stay within the integer widths *)
(* ===================================================================== *)

Lemma lor_u8 f g : is_u8 f -> is_u8 g -> is_u8 (Z.lor f g).
Proof.
  unfold is_u8. intros Hf Hg.
  replace (Z.lor f g) with (Z.lor f g mod 2 ^ 8).
  - apply Z.mod_pos_bound. lia.
  - rewrite <- (Z.mod_small f (2 ^ 8)) at 2 by (change (2 ^ 8) with 256; lia).
    rewrite <- (Z.mod_small g (2 ^ 8)) at 2 by (change (2 ^ 8) with 256; lia).
    Z.bitblast.
Qed.

Lemma ldiff_u8 f g : is_u8 f -> is_u8 (Z.ldiff f g).
Proof.
  unfold is_u8. intros Hf.
  replace (Z.ldiff f g) with (Z.ldiff f g mod 2 ^ 8).
  - apply Z.mod_pos_bound. lia.
  - rewrite <- (Z.mod_small f (2 ^ 8)) at 2 by (change (2 ^ 8) with 256; lia).
    Z.bitblast.
Qed.

Lemma pair16_u16 hi lo : is_u8 hi -> is_u8 lo -> is_u16 (pair16 hi lo).
Proof.
  intros Hhi Hlo. rewrite pair16_bytes by assumption.
  unfold is_u8, is_u16 in *. lia.
Qed.

Lemma SetFlag_wf flag value r :
  is_u8 flag -> Registers.wf r -> Registers.wf (SetFlag flag value r).
Proof.
  intros Hflag (HA & HF & Hrest). unfold SetFlag, Registers.wf.
  destruct value; cbn; auto using lor_u8, ldiff_u8.
Qed.

Lemma index_u8 a i : Forall is_u8 a -> is_u8 (index a i).
Proof.
  intros Ha. unfold index. rewrite list_lookup_total_alt.
  destruct (a !! Z.to_nat i) as [x|] eqn:Hlk; cbn.
  - eapply Forall_lookup_1; eassumption.
  - unfold is_u8. lia.
Qed.

Lemma Read_u8 (m : BasicMemory) addr : BasicMemory.wf m -> is_u8 (Read m addr).
Proof.
  intros (_ & _ & _ & Fr & Fw & Fh).
  cbn [Read BasicMemory_Memory]. unfold BasicMemory.Read.
  repeat match goal with |- context [if ?c then _ else _] => destruct c end;
    auto using index_u8.
  unfold is_u8. lia.
Qed.

(** Taking a [Registers.wf] hypothesis apart and building one field by
    field, without opening the range predicates. *)
Ltac destruct_wf Hwf :=
  let HA := fresh "HA" in let HF := fresh "HF" in let HB := fresh "HB" in
  let HC := fresh "HC" in let HD := fresh "HD" in let HE := fresh "HE" in
  let HH := fresh "HH" in let HL := fresh "HL" in let HSP := fresh "HSP" in
  let HPC := fresh "HPC" in
  destruct Hwf as (HA & HF & HB & HC & HD & HE & HH & HL & HSP & HPC).

Ltac split_wf :=
  unfold Registers.wf; cbn;
  repeat match goal with |- _ /\ _ => split end.

Section StepKeepsWidths.
Context {M : Type} `{Memory M}.
Variable good : M -> Prop.
Hypothesis good_Read : forall m addr, good m -> is_u8 (Read m addr).

Implicit Types cpu : CPU M.

Lemma opADD_A_B_wf cpu :
  Registers.wf (CPU.Registers cpu) -> Registers.wf (CPU.Registers (opADD_A_B cpu)).
Proof.
  intros Hwf. unfold opADD_A_B. cbv zeta. cbn [CPU.set_Registers CPU.Registers].
  match goal with
  | |- Registers.wf (Registers.set_A ?v ?r) =>
      assert (Hr : Registers.wf r)
  end.
  { unfold SetFlagZ, SetFlagN, SetFlagH, SetFlagC.
    repeat apply SetFlag_wf; try exact Hwf;
      unfold is_u8, FlagZ, FlagN, FlagH, FlagC; lia. }
  destruct Hr as (_ & Hrest). unfold Registers.wf. cbn.
  split; [apply wrap8_range|exact Hrest].
Qed.

(** Every handler of the table keeps the registers within their widths
    and does not write memory. *)
Lemma lookupOpcode_keeps_widths (opcode : Z) cpu :
  good (CPU.Memory cpu) -> Registers.wf (CPU.Registers cpu) ->
  Registers.wf (CPU.Registers (Execute (lookupOpcode opcode) cpu)) /\
  CPU.Memory (Execute (lookupOpcode opcode) cpu) = CPU.Memory cpu.
Proof.
  revert cpu.
  apply (lookupOpcode_Forall
           (fun o => forall cpu,
              good (CPU.Memory cpu) -> Registers.wf (CPU.Registers cpu) ->
              Registers.wf (CPU.Registers (Execute o cpu)) /\
              CPU.Memory (Execute o cpu) = CPU.Memory cpu));
    [|apply opcodeTable_Forall];
    try (intros cpu Hg Hwf; split; [exact Hwf|reflexivity]).
  - intros i cpu Hg Hwf; split; [exact Hwf|reflexivity].
  - intros cpu Hg Hwf. split; [|reflexivity]. destruct_wf Hwf.
    split_wf; auto using wrap16_range.
  - intros cpu Hg Hwf. split; [|reflexivity]. destruct_wf Hwf.
    split_wf; auto using wrap16_range.
  - intros cpu Hg Hwf. split; [|reflexivity]. destruct_wf Hwf.
    split_wf; auto using wrap16_range.
  - intros cpu Hg Hwf. split; [|reflexivity]. destruct_wf Hwf.
    split_wf; auto.
  - intros cpu Hg Hwf. split; [|reflexivity]. destruct_wf Hwf.
    split_wf; auto.
  - intros cpu Hg Hwf. split; [apply opADD_A_B_wf; exact Hwf|reflexivity].
  - intros cpu Hg Hwf. split; [|reflexivity]. destruct_wf Hwf.
    split_wf; auto using pair16_u16.
Qed.

(** A step from registers within their widths, on a memory that reads
    bytes, ends in such registers and on the same memory. *)
Lemma Step_keeps_widths cpu :
  good (CPU.Memory cpu) -> Registers.wf (CPU.Registers cpu) ->
  Registers.wf (CPU.Registers (fst (Step cpu))) /\
  CPU.Memory (fst (Step cpu)) = CPU.Memory cpu.
Proof.
  intros Hg Hwf. destruct (CPU.Halted cpu) eqn:Hh.
  - unfold Step. rewrite Hh. split; [exact Hwf|reflexivity].
  - rewrite (Step_running cpu Hh). cbv zeta.
    cbn [fst CPU.set_TotalCycles CPU.Registers CPU.Memory].
    change (CPU.Memory cpu) with (CPU.Memory (snd (fetchByte cpu))) at 2.
    apply (lookupOpcode_keeps_widths _ (snd (fetchByte cpu))).
    + exact Hg.
    + destruct_wf Hwf. split_wf; auto using wrap16_range.
Qed.
End StepKeepsWidths.

(** On the address space of this repository. *)
Lemma Step_BasicMemory_wf (cpu : CPU BasicMemory) :
  BasicMemory.wf (CPU.Memory cpu) -> Registers.wf (CPU.Registers cpu) ->
  Registers.wf (CPU.Registers (fst (Step cpu))) /\
  BasicMemory.wf (CPU.Memory (fst (Step cpu))).
Proof.
  intros Hm Hr.
  destruct (Step_keeps_widths BasicMemory.wf Read_u8 cpu Hm Hr) as (Hr' & Hm').
  split; [exact Hr'|rewrite Hm'; exact Hm].
Qed.

(* ===================================================================== *)
(** ** The repository's tests, replayed on the model *)
(* ===================================================================== *)

(** [TestFRegisterMasking]: [SetAF(0x12FF)] gives A = 0x12, F = 0xF0. *)
Example test_F_register_masking :
  Registers.A (SetAF 0x12FF NewRegisters) = 0x12 /\
  Registers.F (SetAF 0x12FF NewRegisters) = 0xF0.
Proof. split; reflexivity. Qed.

(** [TestAFPair]: A = 0x01 and [SetFlags(true, false, true, true)] read
    back as AF = 0x01B0. *)
Example test_AF_pair :
  AF (SetFlags true false true true (Registers.set_A 0x01 NewRegisters)) = 0x01B0.
Proof. reflexivity. Qed.

(** [TestLoadROM]: the loaded bytes are read back from address 0. *)
Example test_LoadROM :
  let m := fst (BasicMemory.LoadROM BasicMemory.NewBasicMemory [0x00; 0x3E; 0x42; 0xC3]) in
  map (Read m) [0; 1; 2; 3] = [0x00; 0x3E; 0x42; 0xC3].
Proof. vm_compute. reflexivity. Qed.

(** [TestUnmappedRegions]. *)
Example test_unmapped_regions :
  map (Read BasicMemory.NewBasicMemory) [0x8000; 0x9FFF; 0xA000; 0xFE00; 0xFF00] =
  [0xFF; 0xFF; 0xFF; 0xFF; 0xFF].
Proof. vm_compute. reflexivity. Qed.

(** Scenario A: [0x3E,0x05,0x06,0x03,0x80] costs 8, 8, 4 cycles and ends
    with A = 0x08, B = 0x03 and all flags clear. *)
Example scenario_A :
  let cpu0 := setupCPU [0x3E; 0x05; 0x06; 0x03; 0x80] in
  let '(cpu1, c1) := Step cpu0 in
  let '(cpu2, c2) := Step cpu1 in
  let '(cpu3, c3) := Step cpu2 in
  let r := CPU.Registers cpu3 in
  [c1; c2; c3] = [8; 8; 4] /\ Registers.A r = 0x08 /\ Registers.B r = 0x03 /\
  [GetFlagZ r; GetFlagN r; GetFlagH r; GetFlagC r] = [false; false; false; false].
Proof. vm_compute. repeat split. Qed.

(** Scenario B: [0x3E,0xFF,0x06,0x01,0x80] ends with A = 0x00,
    Z, H and C set and N clear. *)
Example scenario_B :
  let cpu0 := setupCPU [0x3E; 0xFF; 0x06; 0x01; 0x80] in
  let cpu3 := fst (Step (fst (Step (fst (Step cpu0))))) in
  let r := CPU.Registers cpu3 in
  Registers.A r = 0x00 /\
  [GetFlagZ r; GetFlagN r; GetFlagH r; GetFlagC r] = [true; false; true; true].
Proof. vm_compute. repeat split. Qed.

(* ===================================================================== *)
(** * Further properties of the address space *)
(* ===================================================================== *)

Lemma index_assign_same a i j v :
  i = j -> 0 <= i < Z.of_nat (length a) -> index (assign a i v) j = v.
Proof. intros <- Hi. apply index_assign_eq. exact Hi. Qed.

(** Settles the tests of [mapped] and [base_address] as well. *)
Ltac decode_all :=
  decode;
  repeat match goal with
    | |- context [?a =? ?b] => destruct (Z.eqb_spec a b); try lia
    end; cbn [andb orb].

(** X1.  Read after write.  On a well-formed memory and 16-bit
    addresses, a read at [b] after a write of [v] at [a] gives [v] when
    [a] is mapped and [a] and [b] decode to the same byte (the same
    address, or a working-memory address and its echo), and otherwise
    gives what [b] held before the write. *)
Theorem Read_after_Write (m : BasicMemory) (a b v : Z) :
  BasicMemory.wf m -> is_u16 a -> is_u16 b ->
  Read (Write m a v) b =
  if mapped a && (base_address a =? base_address b) then v else Read m b.
Proof.
  intros (Hr & Hw & Hh & _) Ha Hb.
  unfold BasicMemory.ROM_LEN, BasicMemory.WRAM_LEN, BasicMemory.HRAM_LEN in *.
  unfold is_u16 in *.
  cbn [Read Write BasicMemory_Memory].
  unfold BasicMemory.Read, BasicMemory.Write, mapped, base_address.
  decode_all;
    cbn [BasicMemory.rom BasicMemory.wram BasicMemory.hram];
    try reflexivity;
    try (apply index_assign_same; lia);
    try (apply index_assign_ne; lia).
Qed.

Lemma Read_after_Write_witness :
  Read (Write BasicMemory.NewBasicMemory 0xE123 0x5A) 0xC123 =
  if mapped 0xE123 && (base_address 0xE123 =? base_address 0xC123)
  then 0x5A else Read BasicMemory.NewBasicMemory 0xC123.
Proof.
  apply (Read_after_Write BasicMemory.NewBasicMemory 0xE123 0xC123 0x5A).
  - exact NewBasicMemory_wf.
  - unfold is_u16. lia.
  - unfold is_u16. lia.
Defined.

(** X2.  The last 512 bytes of working memory, 0xDE00-0xDFFF, have no
    echo: a write there is seen at its own address and changes the read
    at no other 16-bit address. *)
Theorem Write_wram_top_no_echo (m : BasicMemory) (a b v : Z) :
  BasicMemory.wf m -> 0xDE00 <= a <= 0xDFFF -> is_u16 b ->
  Read (Write m a v) a = v /\
  (b <> a -> Read (Write m a v) b = Read m b).
Proof.
  intros (_ & Hw & _) Ha Hb. unfold is_u16 in Hb.
  unfold BasicMemory.WRAM_LEN in Hw.
  cbn [Read Write BasicMemory_Memory].
  unfold BasicMemory.Read, BasicMemory.Write.
  split; [|intros Hne]; decode;
    cbn [BasicMemory.rom BasicMemory.wram BasicMemory.hram];
    try reflexivity;
    try (apply index_assign_eq; lia);
    try (apply index_assign_ne; lia).
Qed.

Lemma Write_wram_top_no_echo_witness :
  Read (Write BasicMemory.NewBasicMemory 0xDE00 0x5A) 0xDE00 = 0x5A /\
  (0xFE00 <> 0xDE00 ->
   Read (Write BasicMemory.NewBasicMemory 0xDE00 0x5A) 0xFE00 =
   Read BasicMemory.NewBasicMemory 0xFE00).
Proof.
  apply (Write_wram_top_no_echo BasicMemory.NewBasicMemory 0xDE00 0xFE00 0x5A).
  - exact NewBasicMemory_wf.
  - lia.
  - unfold is_u16. lia.
Defined.

Lemma index_replicate_0 (n : nat) (i : Z) :
  0 <= i < Z.of_nat n -> index (replicate n 0) i = 0.
Proof.
  intros Hi. unfold index. apply lookup_total_replicate_2. lia.
Qed.

(** X3.  A fresh memory reads 0x00 at every mapped address and 0xFF at
    every other 16-bit address. *)
Theorem NewBasicMemory_reads (addr : Z) :
  is_u16 addr ->
  Read BasicMemory.NewBasicMemory addr = if mapped addr then 0x00 else 0xFF.
Proof.
  unfold is_u16. intros Ha.
  cbn [Read BasicMemory_Memory].
  unfold BasicMemory.Read, BasicMemory.NewBasicMemory, mapped.
  cbn [BasicMemory.rom BasicMemory.wram BasicMemory.hram].
  unfold BasicMemory.ROM_LEN, BasicMemory.WRAM_LEN, BasicMemory.HRAM_LEN.
  decode_all; try reflexivity; apply index_replicate_0; lia.
Qed.

Lemma NewBasicMemory_reads_witness :
  Read BasicMemory.NewBasicMemory 0xFFFE = (if mapped 0xFFFE then 0x00 else 0xFF).
Proof.
  apply (NewBasicMemory_reads 0xFFFE). unfold is_u16. lia.
Defined.

(** X4.  [DirectWrite] is [Write] on the ROM addresses and does nothing
    at any other address, working memory and scratch memory included. *)
Theorem DirectWrite_is_Write_on_rom (m : BasicMemory) (addr val : Z) :
  (addr <= 0x7FFF -> BasicMemory.DirectWrite m addr val = Write m addr val) /\
  (0x7FFF < addr -> BasicMemory.DirectWrite m addr val = m).
Proof.
  cbn [Write BasicMemory_Memory].
  unfold BasicMemory.DirectWrite, BasicMemory.Write.
  split; intros Ha; decode; reflexivity.
Qed.

Lemma DirectWrite_is_Write_on_rom_witness :
  BasicMemory.DirectWrite BasicMemory.NewBasicMemory 0x0100 0x42 =
    Write BasicMemory.NewBasicMemory 0x0100 0x42 /\
  BasicMemory.DirectWrite BasicMemory.NewBasicMemory 0xC000 0x42 =
    BasicMemory.NewBasicMemory.
Proof.
  split.
  - apply (proj1 (DirectWrite_is_Write_on_rom BasicMemory.NewBasicMemory 0x0100 0x42)). lia.
  - apply (proj2 (DirectWrite_is_Write_on_rom BasicMemory.NewBasicMemory 0xC000 0x42)). lia.
Defined.

(** ** Loading, again *)

(** Bytes stored one at a time from [k] on, all within the ROM. *)
Lemma write_bytes_rom (data : list Z) : forall (m : BasicMemory) (k : nat),
  (k + length data <= length (BasicMemory.rom m))%nat ->
  Z.of_nat (length (BasicMemory.rom m)) = BasicMemory.ROM_LEN ->
  write_bytes m (Z.of_nat k) data =
  BasicMemory.mk
    (take k (BasicMemory.rom m) ++ data ++ drop (k + length data) (BasicMemory.rom m))
    (BasicMemory.wram m) (BasicMemory.hram m).
Proof.
  induction data as [|b rest IH]; intros m k Hfit Hlen; cbn [write_bytes length] in *.
  - rewrite Nat.add_0_r. cbn [app]. rewrite take_drop. destruct m; reflexivity.
  - unfold BasicMemory.ROM_LEN in Hlen.
    assert (Hw : Write m (Z.of_nat k) b =
                 BasicMemory.mk (<[k := b]> (BasicMemory.rom m))
                   (BasicMemory.wram m) (BasicMemory.hram m)).
    { cbn [Write BasicMemory_Memory]. unfold BasicMemory.Write, assign.
      decode. rewrite Nat2Z.id. reflexivity. }
    rewrite Hw. replace (Z.of_nat k + 1) with (Z.of_nat (S k)) by lia.
    rewrite IH; cbn [BasicMemory.rom BasicMemory.wram BasicMemory.hram];
      rewrite ?length_insert; try lia; [|unfold BasicMemory.ROM_LEN; lia].
    f_equal.
    rewrite (take_S_r _ k b) by (apply list_lookup_insert_eq; lia).
    rewrite take_insert_ge by lia.
    rewrite drop_insert_lt by lia.
    rewrite <- app_assoc. cbn [app].
    replace (S k + length rest)%nat with (k + S (length rest))%nat by lia.
    reflexivity.
Qed.

(** X5.  Loading a program is storing its bytes one at a time through
    [Write], at addresses 0, 1, 2, ...: for an input of at most 32768
    bytes both leave the same address space. *)
Theorem LoadROM_is_write_bytes (m : BasicMemory) (data : list Z) :
  BasicMemory.wf m ->
  Z.of_nat (length data) <= 32768 ->
  fst (BasicMemory.LoadROM m data) = write_bytes m 0 data.
Proof.
  intros (Hr & _) Hle. change 32768 with BasicMemory.ROM_LEN in Hle.
  rewrite (LoadROM_ok m data Hle). cbn [fst].
  change 0 with (Z.of_nat 0).
  rewrite write_bytes_rom by (try assumption; unfold BasicMemory.ROM_LEN in *; lia).
  cbn [take app Nat.add].
  rewrite copy_fits by (unfold BasicMemory.ROM_LEN in *; lia).
  reflexivity.
Qed.

Lemma LoadROM_is_write_bytes_witness :
  fst (BasicMemory.LoadROM BasicMemory.NewBasicMemory [0x3E; 0x0A; 0x06; 0x14; 0x80]) =
  write_bytes BasicMemory.NewBasicMemory 0 [0x3E; 0x0A; 0x06; 0x14; 0x80].
Proof.
  apply (LoadROM_is_write_bytes BasicMemory.NewBasicMemory [0x3E; 0x0A; 0x06; 0x14; 0x80]).
  - exact NewBasicMemory_wf.
  - cbn. lia.
Defined.

Lemma copy_copy (rom d1 d2 : list Z) :
  (length d1 <= length d2)%nat -> (length d2 <= length rom)%nat ->
  copy (copy rom d1) d2 = copy rom d2.
Proof.
  intros H12 H2.
  rewrite (copy_fits (copy rom d1) d2) by (rewrite copy_length; lia).
  rewrite (copy_fits rom d1) by lia.
  rewrite (copy_fits rom d2) by lia.
  rewrite drop_app_ge by lia. rewrite drop_drop.
  do 2 f_equal. lia.
Qed.

(** X6.  A load that is at least as long as the one before it replaces
    it entirely: loading [d1] and then [d2], with
    [len d1 <= len d2 <= 32768], leaves the address space that loading
    [d2] alone leaves.  In particular loading the same program twice is
    loading it once. *)
Theorem LoadROM_replaces_shorter (m : BasicMemory) (d1 d2 : list Z) :
  BasicMemory.wf m ->
  (length d1 <= length d2)%nat ->
  Z.of_nat (length d2) <= 32768 ->
  fst (BasicMemory.LoadROM (fst (BasicMemory.LoadROM m d1)) d2) =
  fst (BasicMemory.LoadROM m d2).
Proof.
  intros (Hr & _) H12 H2. change 32768 with BasicMemory.ROM_LEN in H2.
  rewrite (LoadROM_ok m d1) by lia. cbn [fst].
  rewrite !LoadROM_ok by exact H2.
  cbn [fst BasicMemory.rom BasicMemory.wram BasicMemory.hram].
  rewrite copy_copy by (unfold BasicMemory.ROM_LEN in *; lia).
  reflexivity.
Qed.

Lemma LoadROM_replaces_shorter_witness :
  fst (BasicMemory.LoadROM
         (fst (BasicMemory.LoadROM BasicMemory.NewBasicMemory [0x3E; 0xFF]))
         [0x06; 0x01; 0x80]) =
  fst (BasicMemory.LoadROM BasicMemory.NewBasicMemory [0x06; 0x01; 0x80]).
Proof.
  apply (LoadROM_replaces_shorter BasicMemory.NewBasicMemory [0x3E; 0xFF] [0x06; 0x01; 0x80]).
  - exact NewBasicMemory_wf.
  - cbn. lia.
  - cbn. lia.
Defined.

(** X7.  A shorter load does not clear what a longer one left: after
    loading [d1] and then a shorter [d2], the addresses from [len d2] up
    to [len d1 - 1] still read the bytes of [d1], and the addresses
    below [len d2] read the bytes of [d2]. *)
Theorem LoadROM_shorter_keeps_tail (m : BasicMemory) (d1 d2 : list Z) (i : Z) :
  BasicMemory.wf m ->
  (length d2 <= length d1)%nat ->
  Z.of_nat (length d1) <= 32768 ->
  0 <= i < Z.of_nat (length d1) ->
  Read (fst (BasicMemory.LoadROM (fst (BasicMemory.LoadROM m d1)) d2)) i =
  if i <? Z.of_nat (length d2) then index d2 i else index d1 i.
Proof.
  intros (Hr & _) H21 H1 Hi. change 32768 with BasicMemory.ROM_LEN in H1.
  rewrite (LoadROM_ok m d1) by lia. cbn [fst].
  rewrite LoadROM_ok by lia.
  cbn [fst BasicMemory.rom BasicMemory.wram BasicMemory.hram].
  unfold BasicMemory.ROM_LEN in *.
  rewrite (copy_fits (copy (BasicMemory.rom m) d1) d2) by (rewrite copy_length; lia).
  rewrite (copy_fits (BasicMemory.rom m) d1) by lia.
  cbn [Read BasicMemory_Memory]. unfold BasicMemory.Read.
  destruct (Z.leb_spec i 0x7FFF); [|lia].
  cbn [BasicMemory.rom]. unfold index.
  destruct (Z.ltb_spec i (Z.of_nat (length d2))).
  - apply lookup_total_app_l. lia.
  - rewrite lookup_total_app_r by lia. rewrite lookup_total_drop.
    replace (length d2 + (Z.to_nat i - length d2))%nat with (Z.to_nat i) by lia.
    apply lookup_total_app_l. lia.
Qed.

Lemma LoadROM_shorter_keeps_tail_witness :
  Read (fst (BasicMemory.LoadROM
               (fst (BasicMemory.LoadROM BasicMemory.NewBasicMemory [0x3E; 0xFF; 0x80]))
               [0x00])) 2 =
  if 2 <? Z.of_nat (length [0x00]) then index [0x00] 2 else index [0x3E; 0xFF; 0x80] 2.
Proof.
  apply (LoadROM_shorter_keeps_tail BasicMemory.NewBasicMemory [0x3E; 0xFF; 0x80] [0x00] 2).
  - exact NewBasicMemory_wf.
  - cbn. lia.
  - cbn. lia.
  - cbn. lia.
Defined.

(* ===================================================================== *)
(** * Further properties of the register file *)
(* ===================================================================== *)

(** X8.  The four flags are independent: setting one flag and reading
    any flag back gives the value set when it is the same flag and the
    value held before when it is another, whatever F held. *)
Theorem flags_independent (f g : Z) (value : bool) (r : Registers) :
  f ∈ [FlagZ; FlagN; FlagH; FlagC] ->
  g ∈ [FlagZ; FlagN; FlagH; FlagC] ->
  GetFlag g (SetFlag f value r) = if f =? g then value else GetFlag g r.
Proof.
  rewrite !elem_of_cons, !elem_of_nil.
  intros [->|[->|[->|[->|[]]]]] [->|[->|[->|[->|[]]]]];
    rewrite ?FlagZ_bit, ?FlagN_bit, ?FlagH_bit, ?FlagC_bit;
    rewrite GetFlag_SetFlag by lia; reflexivity.
Qed.

Lemma flags_independent_witness :
  GetFlag FlagC (SetFlag FlagZ true (SetAF 0x0010 NewRegisters)) =
  if FlagZ =? FlagC then true else GetFlag FlagC (SetAF 0x0010 NewRegisters).
Proof.
  apply (flags_independent FlagZ FlagC true (SetAF 0x0010 NewRegisters));
    rewrite !elem_of_cons; auto.
Defined.

Lemma SetFlag_F flag value r :
  Registers.F (SetFlag flag value r) =
  if value then Z.lor (Registers.F r) flag else Z.ldiff (Registers.F r) flag.
Proof. unfold SetFlag. destruct value; reflexivity. Qed.

Lemma SetFlag_only_F flag value r :
  SetFlag flag value r = Registers.set_F (Registers.F (SetFlag flag value r)) r.
Proof. unfold SetFlag. destruct value; reflexivity. Qed.

Lemma set_F_set_F v w r : Registers.set_F v (Registers.set_F w r) = Registers.set_F v r.
Proof. reflexivity. Qed.

Lemma SetFlags_only_F z n h c r :
  SetFlags z n h c r = Registers.set_F (Registers.F (SetFlags z n h c r)) r.
Proof. destruct z, n, h, c; reflexivity. Qed.

(** Bit [k] of F after [SetFlags]. *)
Lemma SetFlags_testbit z n h c r k :
  0 <= k ->
  Z.testbit (Registers.F (SetFlags z n h c r)) k =
  if 4 =? k then c else if 5 =? k then h else if 6 =? k then n
  else if 7 =? k then z else false.
Proof.
  intros Hk.
  assert (Heq : Registers.F (SetFlags z n h c r) =
                Registers.F (SetFlag (2 ^ 4) c (SetFlag (2 ^ 5) h
                  (SetFlag (2 ^ 6) n (SetFlag (2 ^ 7) z (Registers.set_F 0 r))))))
    by (destruct z, n, h, c; reflexivity).
  rewrite Heq, !SetFlag_testbit by lia. cbn [Registers.F Registers.set_F].
  rewrite Z.bits_0. reflexivity.
Qed.

(** Bit [k] of F after the four single-flag setters. *)
Lemma four_setters_testbit z n h c r k :
  0 <= k ->
  Z.testbit (Registers.F (SetFlagC c (SetFlagH h (SetFlagN n (SetFlagZ z r))))) k =
  if 4 =? k then c else if 5 =? k then h else if 6 =? k then n
  else if 7 =? k then z else Z.testbit (Registers.F r) k.
Proof.
  intros Hk. unfold SetFlagZ, SetFlagN, SetFlagH, SetFlagC.
  rewrite FlagZ_bit, FlagN_bit, FlagH_bit, FlagC_bit.
  rewrite !SetFlag_testbit by lia. reflexivity.
Qed.

(** X9.  [SetFlags] stores exactly the four flags it is given: each
    reads back as passed, F becomes 128 z + 64 n + 32 h + 16 c, whatever
    it held, and no other register changes. *)
Theorem SetFlags_readback (z n h c : bool) (r : Registers) :
  let r' := SetFlags z n h c r in
  GetFlagZ r' = z /\ GetFlagN r' = n /\ GetFlagH r' = h /\ GetFlagC r' = c /\
  Registers.F r' = 128 * Z.b2z z + 64 * Z.b2z n + 32 * Z.b2z h + 16 * Z.b2z c /\
  r' = Registers.set_F (Registers.F r') r.
Proof.
  cbv zeta. split; [|split; [|split; [|split; [|split]]]].
  - unfold GetFlagZ. rewrite FlagZ_bit, GetFlag_testbit, SetFlags_testbit by lia. reflexivity.
  - unfold GetFlagN. rewrite FlagN_bit, GetFlag_testbit, SetFlags_testbit by lia. reflexivity.
  - unfold GetFlagH. rewrite FlagH_bit, GetFlag_testbit, SetFlags_testbit by lia. reflexivity.
  - unfold GetFlagC. rewrite FlagC_bit, GetFlag_testbit, SetFlags_testbit by lia. reflexivity.
  - destruct z, n, h, c; reflexivity.
  - apply SetFlags_only_F.
Qed.

Lemma SetFlags_F_masks_setters z n h c r :
  Registers.F (SetFlags z n h c r) =
  Z.land (Registers.F (SetFlagC c (SetFlagH h (SetFlagN n (SetFlagZ z r))))) 0xF0.
Proof.
  apply Z.bits_inj'. intros k Hk.
  rewrite Z.land_spec, SetFlags_testbit, four_setters_testbit by lia.
  change 0xF0 with (Z.shiftl (Z.ones 4) 4).
  rewrite Z.shiftl_spec, Z.testbit_ones by lia.
  destruct (Z.eqb_spec 4 k); [subst; destruct c; reflexivity|].
  destruct (Z.eqb_spec 5 k); [subst; destruct h; reflexivity|].
  destruct (Z.eqb_spec 6 k); [subst; destruct n; reflexivity|].
  destruct (Z.eqb_spec 7 k); [subst; destruct z; reflexivity|].
  destruct (Z.ltb_spec (k - 4) 4); destruct (Z.leb_spec 0 (k - 4)); try lia;
    cbn [andb]; rewrite ?andb_false_r; reflexivity.
Qed.

Lemma land_F0_id f : is_u8 f -> Z.land f 0x0F = 0 -> Z.land f 0xF0 = f.
Proof.
  intros Hf Hlow.
  rewrite <- (Z.lor_0_r (Z.land f 0xF0)), <- Hlow, <- Z.land_lor_distr_r.
  change (Z.lor 0xF0 0x0F) with (Z.ones 8).
  rewrite Z.land_ones by lia. apply Z.mod_small. exact Hf.
Qed.

(** X10.  [SetFlags] against the four single-flag setters:
    [SetFlags z n h c] stores in F what [SetFlagZ z], [SetFlagN n],
    [SetFlagH h], [SetFlagC c] in a row store, with the low nibble
    cleared; when F is a byte whose low nibble is already zero the two
    leave the same registers. *)
Theorem SetFlags_as_setters (z n h c : bool) (r : Registers) :
  let r4 := SetFlagC c (SetFlagH h (SetFlagN n (SetFlagZ z r))) in
  Registers.F (SetFlags z n h c r) = Z.land (Registers.F r4) 0xF0 /\
  (is_u8 (Registers.F r) -> low_nibble r = 0 -> SetFlags z n h c r = r4).
Proof.
  intros r4. split; [apply SetFlags_F_masks_setters|].
  intros HF Hlow.
  assert (Hr4 : r4 = Registers.set_F (Registers.F r4) r).
  { unfold r4, SetFlagZ, SetFlagN, SetFlagH, SetFlagC, SetFlag.
    destruct c, h, n, z; reflexivity. }
  rewrite SetFlags_only_F, Hr4. f_equal.
  rewrite SetFlags_F_masks_setters. fold r4.
  apply land_F0_id.
  - unfold r4, SetFlagZ, SetFlagN, SetFlagH, SetFlagC.
    rewrite !SetFlag_F.
    destruct c, h, n, z;
      repeat first [ exact HF | apply lor_u8 | apply ldiff_u8
                   | unfold is_u8, FlagZ, FlagN, FlagH, FlagC; lia ].
  - change (Z.land (Registers.F r4) 15) with (low_nibble r4).
    unfold r4, SetFlagZ, SetFlagN, SetFlagH, SetFlagC.
    rewrite !low_nibble_SetFlag by reflexivity. exact Hlow.
Qed.

Lemma SetFlags_as_setters_witness :
  let r := SetAF 0x12F0 NewRegisters in
  let r4 := SetFlagC true (SetFlagH false (SetFlagN false (SetFlagZ true r))) in
  SetFlags true false false true r = r4.
Proof.
  intros r.
  apply (proj2 (SetFlags_as_setters true false false true r)).
  - vm_compute. split; [discriminate|reflexivity].
  - reflexivity.
Defined.

(** ** Register pairs, again *)

(** The bytes of a pair, split back. *)
Lemma pair16_high hi lo : is_u8 hi -> is_u8 lo -> wrap8 (Z.shiftr (pair16 hi lo) 8) = hi.
Proof.
  intros Hhi Hlo. rewrite pair16_bytes by assumption.
  rewrite Z.shiftr_div_pow2 by lia. change (2 ^ 8) with 256.
  unfold wrap8, is_u8 in *.
  replace ((lo + 256 * hi) / 256) with hi by (apply Z.div_unique with lo; lia).
  apply Z.mod_small. lia.
Qed.

Lemma pair16_low hi lo : is_u8 hi -> is_u8 lo -> wrap8 (pair16 hi lo) = lo.
Proof.
  intros Hhi Hlo. rewrite pair16_bytes by assumption.
  unfold wrap8, is_u8 in *.
  symmetry. apply Z.mod_unique with hi; lia.
Qed.

(** X11.  Reading a pair and writing it back changes nothing: on
    registers within their widths [SetBC (BC r)], [SetDE (DE r)] and
    [SetHL (HL r)] return [r], and [SetAF (AF r)] returns [r] exactly
    when the low nibble of F is zero. *)
Theorem pair_get_then_set (r : Registers) :
  Registers.wf r ->
  SetBC (BC r) r = r /\ SetDE (DE r) r = r /\ SetHL (HL r) r = r /\
  (SetAF (AF r) r = r <-> low_nibble r = 0).
Proof.
  intros (Ha & Hf & Hb & Hc & Hd & He & Hh & Hl & _).
  unfold SetBC, SetDE, SetHL, SetAF, BC, DE, HL, AF.
  cbv zeta.
  rewrite !pair16_high, !pair16_low by assumption.
  destruct r as [a f b c d e h l sp pc]; cbn in *.
  split; [reflexivity|]. split; [reflexivity|]. split; [reflexivity|].
  unfold low_nibble; cbn. split.
  - intros Heq. injection Heq as Hmask.
    rewrite <- Hmask at 1. rewrite <- Z.land_assoc. change (Z.land 240 15) with 0.
    apply Z.land_0_r.
  - intros Hlow. rewrite land_F0_id by assumption. reflexivity.
Qed.

Lemma pair_get_then_set_witness :
  let r := SetHL 0xC0DE (SetDE 0x1234 (SetBC 0xABCD (SetAF 0x01B0 NewRegisters))) in
  SetBC (BC r) r = r /\ SetDE (DE r) r = r /\ SetHL (HL r) r = r /\
  (SetAF (AF r) r = r <-> low_nibble r = 0).
Proof.
  intros r. apply (pair_get_then_set r).
  vm_compute. repeat split; discriminate.
Defined.

(** X12.  On registers within their widths a pair reads as
    [256 * high + low], a 16-bit value; and a pair setter writes its own
    two registers only: the other three pairs, SP and PC read as before
    (for [SetAF] the flags are the pair itself). *)
Theorem pairs_are_separate (v : Z) (r : Registers) :
  Registers.wf r ->
  (BC r = 256 * Registers.B r + Registers.C r /\ is_u16 (BC r)) /\
  (DE r = 256 * Registers.D r + Registers.E r /\ is_u16 (DE r)) /\
  (HL r = 256 * Registers.H r + Registers.L r /\ is_u16 (HL r)) /\
  (AF r = 256 * Registers.A r + Registers.F r /\ is_u16 (AF r)) /\
  (AF (SetBC v r) = AF r /\ DE (SetBC v r) = DE r /\ HL (SetBC v r) = HL r) /\
  (AF (SetDE v r) = AF r /\ BC (SetDE v r) = BC r /\ HL (SetDE v r) = HL r) /\
  (AF (SetHL v r) = AF r /\ BC (SetHL v r) = BC r /\ DE (SetHL v r) = DE r) /\
  (BC (SetAF v r) = BC r /\ DE (SetAF v r) = DE r /\ HL (SetAF v r) = HL r) /\
  (forall set, set ∈ [SetAF; SetBC; SetDE; SetHL] ->
     Registers.SP (set v r) = Registers.SP r /\
     Registers.PC (set v r) = Registers.PC r).
Proof.
  intros (Ha & Hf & Hb & Hc & Hd & He & Hh & Hl & _).
  unfold BC, DE, HL, AF.
  rewrite !pair16_bytes by assumption.
  repeat match goal with |- _ /\ _ => split end;
    try reflexivity; try lia; try (apply pair16_u16; assumption).
  - rewrite <- pair16_bytes by assumption. apply pair16_u16; assumption.
  - rewrite <- pair16_bytes by assumption. apply pair16_u16; assumption.
  - rewrite <- pair16_bytes by assumption. apply pair16_u16; assumption.
  - rewrite <- pair16_bytes by assumption. apply pair16_u16; assumption.
  - intros set. rewrite !elem_of_cons, elem_of_nil.
    intros [->|[->|[->|[->|[]]]]]; split; reflexivity.
Qed.

Lemma pairs_are_separate_witness :
  let r := SetDE 0x1234 (SetBC 0xABCD NewRegisters) in
  BC r = 256 * Registers.B r + Registers.C r /\ is_u16 (BC r).
Proof.
  intros r. apply (pairs_are_separate 0xC000 r).
  vm_compute. repeat split; discriminate.
Defined.

(** ** Single-flag writes, again *)

Lemma SetFlag_eq_F flag value flag' value' (r r' : Registers) :
  Registers.F (SetFlag flag value r) = Registers.F (SetFlag flag' value' r') ->
  Registers.set_F 0 r = Registers.set_F 0 r' ->
  SetFlag flag value r = SetFlag flag' value' r'.
Proof.
  intros HF Hrest.
  rewrite (SetFlag_only_F flag), (SetFlag_only_F flag'), HF.
  change (Registers.set_F ?v r) with (Registers.set_F v (Registers.set_F 0 r)).
  rewrite Hrest. reflexivity.
Qed.

(** X13.  Writes of one flag mask: the last write wins, whatever the
    mask and whatever F held; and writes with two masks that share no
    bit can be made in either order. *)
Theorem SetFlag_last_write_wins (f g : Z) (v w : bool) (r : Registers) :
  SetFlag f w (SetFlag f v r) = SetFlag f w r /\
  (Z.land f g = 0 -> SetFlag f v (SetFlag g w r) = SetFlag g w (SetFlag f v r)).
Proof.
  split.
  - apply SetFlag_eq_F; [|destruct v; reflexivity].
    rewrite !SetFlag_F. destruct v, w; Z.bitblast.
  - intros Hdisj. apply SetFlag_eq_F; [|destruct v, w; reflexivity].
    rewrite !SetFlag_F.
    assert (Hbit : forall k, Z.testbit f k && Z.testbit g k = false)
      by (intros k; rewrite <- Z.land_spec, Hdisj; apply Z.bits_0).
    destruct v, w; apply Z.bits_inj'; intros k _; specialize (Hbit k);
      rewrite ?Z.lor_spec, ?Z.ldiff_spec, ?Z.lor_spec, ?Z.ldiff_spec;
      destruct (Z.testbit f k), (Z.testbit g k), (Z.testbit (Registers.F r) k);
      simpl in *; congruence.
Qed.

Lemma SetFlag_last_write_wins_witness :
  SetFlag FlagZ true (SetFlag FlagC false NewRegisters) =
  SetFlag FlagC false (SetFlag FlagZ true NewRegisters).
Proof.
  apply (proj2 (SetFlag_last_write_wins FlagZ FlagC true false NewRegisters)).
  reflexivity.
Defined.

(* ===================================================================== *)
(** * Further properties of the execution core *)
(* ===================================================================== *)

Section MoreProcessorProperties.
Context {M : Type} `{Memory M}.

Implicit Types cpu : CPU M.

(** The descriptor found for any fetched value: the assigned one at the
    eight assigned slots, the UNKNOWN one of the slot elsewhere. *)
Lemma lookupOpcode_view (opcode : Z) :
  let n := Z.to_nat opcode in
  lookupOpcode opcode =
  if decide (n = 195%nat) then mkOpcode "JP nn" 3 16 opJP_nn
  else if decide (n = 128%nat) then mkOpcode "ADD A, B" 1 4 opADD_A_B
  else if decide (n = 121%nat) then mkOpcode "LD A, C" 1 4 opLD_A_C
  else if decide (n = 120%nat) then mkOpcode "LD A, B" 1 4 opLD_A_B
  else if decide (n = 14%nat) then mkOpcode "LD C, n" 2 8 opLD_C_n
  else if decide (n = 6%nat) then mkOpcode "LD B, n" 2 8 opLD_B_n
  else if decide (n = 62%nat) then mkOpcode "LD A, n" 2 8 opLD_A_n
  else if decide (n = 0%nat) then mkOpcode "NOP" 1 4 opNOP
  else unknownOpcode (if decide (n < 256)%nat then Z.of_nat n else 0).
Proof.
  intros n. unfold lookupOpcode. fold n. clearbody n.
  unfold opcodeTable, initOpcodes, set_entry. cbv zeta.
  repeat (case_decide;
    [ subst n; apply list_lookup_total_insert_eq;
      rewrite ?length_insert, length_fmap, length_seq; lia
    | rewrite list_lookup_total_insert_ne by (cbn; lia) ]).
  case_decide as Hlt.
  - rewrite (list_lookup_total_fmap (fun i : nat => unknownOpcode (Z.of_nat i)))
      by (rewrite length_seq; lia).
    rewrite lookup_total_seq_lt by lia. reflexivity.
  - rewrite list_lookup_total_alt, lookup_ge_None_2
      by (rewrite length_fmap, length_seq; lia).
    reflexivity.
Qed.

(** Case analysis on the fetched opcode. *)
Ltac opcode_cases opcode :=
  rewrite (lookupOpcode_view opcode); cbv zeta;
  repeat case_decide.

Lemma Step_keeps_Halted cpu : CPU.Halted (fst (Step cpu)) = CPU.Halted cpu.
Proof.
  destruct (CPU.Halted cpu) eqn:Hh.
  - unfold Step. rewrite Hh. exact Hh.
  - rewrite (Step_running cpu Hh). cbv zeta.
    opcode_cases (Read (CPU.Memory cpu) (Registers.PC (CPU.Registers cpu)));
      exact Hh.
Qed.

Lemma Step_keeps_Memory cpu : CPU.Memory (fst (Step cpu)) = CPU.Memory cpu.
Proof.
  destruct (CPU.Halted cpu) eqn:Hh.
  - unfold Step. rewrite Hh. reflexivity.
  - rewrite (Step_running cpu Hh). cbv zeta.
    opcode_cases (Read (CPU.Memory cpu) (Registers.PC (CPU.Registers cpu)));
      reflexivity.
Qed.

(** ADD A,B assigns A and F and nothing else. *)
Lemma opADD_A_B_only_A_F cpu :
  exists a f,
    opADD_A_B cpu =
    CPU.set_Registers
      (Registers.set_A a (Registers.set_F f (CPU.Registers cpu))) cpu.
Proof.
  unfold opADD_A_B, SetFlagZ, SetFlagN, SetFlagH, SetFlagC, SetFlag. cbv zeta.
  repeat match goal with |- context [if ?c then _ else _] => destruct c end;
    eexists; eexists; reflexivity.
Qed.

(** X14.  What no step does, on any memory and from any state: it never
    writes memory, never changes the halted state (a running CPU keeps
    running, a halted one stays halted), and never changes D, E, H, L
    or SP. *)
Theorem Step_never_touches cpu :
  let cpu' := fst (Step cpu) in
  let r := CPU.Registers cpu in
  let r' := CPU.Registers cpu' in
  CPU.Memory cpu' = CPU.Memory cpu /\
  CPU.Halted cpu' = CPU.Halted cpu /\
  Registers.D r' = Registers.D r /\ Registers.E r' = Registers.E r /\
  Registers.H r' = Registers.H r /\ Registers.L r' = Registers.L r /\
  Registers.SP r' = Registers.SP r.
Proof.
  cbv zeta.
  split; [apply Step_keeps_Memory|]. split; [apply Step_keeps_Halted|].
  destruct (CPU.Halted cpu) eqn:Hh.
  - unfold Step. rewrite Hh. repeat split.
  - rewrite (Step_running cpu Hh). cbv zeta.
    opcode_cases (Read (CPU.Memory cpu) (Registers.PC (CPU.Registers cpu)));
      try (cbn [Execute];
           destruct (opADD_A_B_only_A_F (snd (fetchByte cpu))) as (a & f & ->));
      repeat split.
Qed.

(** The state a running step leaves when its instruction leaves the
    registers [r'] and costs [cycles]. *)
Lemma Step_at cpu (o : Opcode) :
  CPU.Halted cpu = false ->
  lookupOpcode (Read (CPU.Memory cpu) (Registers.PC (CPU.Registers cpu))) = o ->
  Step cpu =
  (let cpu2 := Execute o (snd (fetchByte cpu)) in
   CPU.set_TotalCycles (wrap64 (CPU.TotalCycles cpu2 + wrap64 (Cycles o))) cpu2,
   Cycles o).
Proof. intros Hh Ho. rewrite (Step_running cpu Hh). cbv zeta. rewrite Ho. reflexivity. Qed.

(** X15.  LD A,n / LD B,n / LD C,n (0x3E, 0x06, 0x0E): a running step
    that fetches one of them stores the byte that follows the opcode in
    A, B or C, moves PC two addresses on (in 16 bits), adds 8 to the
    cycle total and returns 8; F and every other register, the memory
    and the halted state stay as they were. *)
Theorem Step_LD_r_n cpu :
  CPU.Halted cpu = false ->
  let r := CPU.Registers cpu in
  let m := CPU.Memory cpu in
  let n := Read m (wrap16 (Registers.PC r + 1)) in
  let r2 := Registers.set_PC (wrap16 (wrap16 (Registers.PC r + 1) + 1)) r in
  let after regs := (CPU.mk regs m false (wrap64 (CPU.TotalCycles cpu + 8)), 8) in
  (Read m (Registers.PC r) = 0x3E -> Step cpu = after (Registers.set_A n r2)) /\
  (Read m (Registers.PC r) = 0x06 -> Step cpu = after (Registers.set_B n r2)) /\
  (Read m (Registers.PC r) = 0x0E -> Step cpu = after (Registers.set_C n r2)).
Proof.
  intros Hh. destruct cpu as [regs mem halted tc]. cbn [CPU.Halted] in Hh. subst halted.
  intros r m n r2 after. subst r m n r2 after.
  repeat split; intros Hop;
    rewrite (Step_at (CPU.mk regs mem false tc) _ eq_refl eq_refl);
    cbn [CPU.Registers CPU.Memory] in *; rewrite Hop; reflexivity.
Qed.

(** X16.  LD A,B / LD A,C (0x78, 0x79): a running step that fetches one
    of them copies B, or C, into A, moves PC one address on (in 16
    bits), adds 4 to the cycle total and returns 4; the source register,
    F and everything else stay as they were. *)
Theorem Step_LD_A_r cpu :
  CPU.Halted cpu = false ->
  let r := CPU.Registers cpu in
  let m := CPU.Memory cpu in
  let r1 := Registers.set_PC (wrap16 (Registers.PC r + 1)) r in
  let after regs := (CPU.mk regs m false (wrap64 (CPU.TotalCycles cpu + 4)), 4) in
  (Read m (Registers.PC r) = 0x78 -> Step cpu = after (Registers.set_A (Registers.B r) r1)) /\
  (Read m (Registers.PC r) = 0x79 -> Step cpu = after (Registers.set_A (Registers.C r) r1)).
Proof.
  intros Hh. destruct cpu as [regs mem halted tc]. cbn [CPU.Halted] in Hh. subst halted.
  intros r m r1 after. subst r m r1 after.
  repeat split; intros Hop;
    rewrite (Step_at (CPU.mk regs mem false tc) _ eq_refl eq_refl);
    cbn [CPU.Registers CPU.Memory] in *; rewrite Hop; reflexivity.
Qed.

(** X17.  NOP (0x00): a running step that fetches it moves PC one
    address on (in 16 bits), adds 4 to the cycle total and returns 4,
    and changes nothing else. *)
Theorem Step_NOP cpu :
  CPU.Halted cpu = false ->
  Read (CPU.Memory cpu) (Registers.PC (CPU.Registers cpu)) = 0x00 ->
  let r := CPU.Registers cpu in
  Step cpu =
  (CPU.mk (Registers.set_PC (wrap16 (Registers.PC r + 1)) r) (CPU.Memory cpu)
     false (wrap64 (CPU.TotalCycles cpu + 4)), 4).
Proof.
  intros Hh. destruct cpu as [regs mem halted tc]. cbn [CPU.Halted] in Hh. subst halted.
  intros Hop r. subst r.
  rewrite (Step_at (CPU.mk regs mem false tc) _ eq_refl eq_refl).
  cbn [CPU.Registers CPU.Memory] in *. rewrite Hop. reflexivity.
Qed.

(** X18.  ADD A,B (0x80) writes A and F only: a running step that
    fetches it leaves B, C, D, E, H, L and SP as they were, moves PC one
    address on (in 16 bits), leaves the memory alone and adds 4 to the
    cycle total. *)
Theorem Step_ADD_A_B_frame cpu :
  CPU.Halted cpu = false ->
  Read (CPU.Memory cpu) (Registers.PC (CPU.Registers cpu)) = 0x80 ->
  let r := CPU.Registers cpu in
  let cpu' := fst (Step cpu) in
  let r' := CPU.Registers cpu' in
  Registers.B r' = Registers.B r /\ Registers.C r' = Registers.C r /\
  Registers.D r' = Registers.D r /\ Registers.E r' = Registers.E r /\
  Registers.H r' = Registers.H r /\ Registers.L r' = Registers.L r /\
  Registers.SP r' = Registers.SP r /\
  Registers.PC r' = wrap16 (Registers.PC r + 1) /\
  CPU.Memory cpu' = CPU.Memory cpu /\
  CPU.TotalCycles cpu' = wrap64 (CPU.TotalCycles cpu + 4).
Proof.
  intros Hh Hop r cpu' r'. subst cpu' r' r.
  rewrite (Step_at cpu _ Hh eq_refl).
  rewrite Hop. rewrite lookupOpcode_ADD_A_B. cbn [Execute Cycles].
  destruct (opADD_A_B_only_A_F (snd (fetchByte cpu))) as (a & f & ->).
  repeat split.
Qed.
(** X19.  The arithmetic of ADD A,B on byte operands: the result and
    the carry flag together hold the exact sum,
    [A' + 256 * C = A + B]; the low nibble of the result and the
    half-carry flag hold the exact sum of the low nibbles; Z is set
    exactly when the sum is 0 or 256; and exchanging the two operands
    gives the same result and the same flags. *)
Theorem ADD_A_B_arithmetic cpu :
  let a := Registers.A (CPU.Registers cpu) in
  let b := Registers.B (CPU.Registers cpu) in
  is_u8 a -> is_u8 b ->
  let r' := CPU.Registers (opADD_A_B cpu) in
  let swapped :=
    CPU.set_Registers (Registers.set_B a (Registers.set_A b (CPU.Registers cpu))) cpu in
  let r'' := CPU.Registers (opADD_A_B swapped) in
  Registers.A r' + 256 * Z.b2z (GetFlagC r') = a + b /\
  Registers.A r' mod 16 + 16 * Z.b2z (GetFlagH r') = a mod 16 + b mod 16 /\
  (GetFlagZ r' = true <-> a + b = 0 \/ a + b = 256) /\
  Registers.A r'' = Registers.A r' /\ same_flags r' r''.
Proof.
  intros a b Ha Hb r' swapped r''.
  destruct (opADD_A_B_registers cpu Ha Hb) as (HA & HZ & HN & HH & HC).
  fold a b r' in HA, HZ, HN, HH, HC.
  destruct (opADD_A_B_registers swapped Hb Ha) as (HA' & HZ' & HN' & HH' & HC').
  cbn [swapped CPU.set_Registers CPU.Registers Registers.set_A Registers.set_B
       Registers.A Registers.B] in HA', HZ', HN', HH', HC'.
  fold swapped r'' in HA', HZ', HN', HH', HC'.
  change 0x0F with (Z.ones 4) in HH, HH'. rewrite !Z.land_ones in HH, HH' by lia.
  change (2 ^ 4) with 16 in HH, HH'. change (Z.ones 4) with 15 in HH, HH'.
  unfold is_u8 in Ha, Hb.
  rewrite HA, HZ, HH, HC.
  split; [|split; [|split; [|split]]].
  - rewrite Z.gtb_ltb. destruct (Z.ltb_spec 255 (a + b)); cbn [Z.b2z].
    + replace ((a + b) mod 256) with (a + b - 256)
        by (apply Z.mod_unique with 1; lia). lia.
    + rewrite Z.mod_small by lia. lia.
  - rewrite (Z.mod_mod_divide (a + b) 256 16) by (exists 16; reflexivity).
    rewrite (Zplus_mod a b 16).
    assert (Hx : 0 <= a mod 16 < 16) by (apply Z.mod_pos_bound; lia).
    assert (Hy : 0 <= b mod 16 < 16) by (apply Z.mod_pos_bound; lia).
    set (x := a mod 16) in *. set (y := b mod 16) in *. clearbody x y.
    rewrite Z.gtb_ltb. destruct (Z.ltb_spec 15 (x + y)); cbn [Z.b2z].
    + replace ((x + y) mod 16) with (x + y - 16)
        by (apply Z.mod_unique with 1; lia). lia.
    + rewrite Z.mod_small by lia. lia.
  - rewrite Z.eqb_eq. split.
    + intros Hmod. destruct (Z.lt_ge_cases (a + b) 256).
      * rewrite Z.mod_small in Hmod by lia. lia.
      * replace ((a + b) mod 256) with (a + b - 256) in Hmod
          by (apply Z.mod_unique with 1; lia). lia.
    + intros [->| ->]; reflexivity.
  - rewrite HA'. f_equal. lia.
  - unfold same_flags. rewrite HZ', HN', HH', HC', HZ, HN, HH, HC.
    rewrite (Z.add_comm b a), (Z.add_comm (b mod 16) (a mod 16)). repeat split.
Qed.
Lemma wrap16_succ_succ z : wrap16 (wrap16 (z + 1) + 1) = wrap16 (z + 2).
Proof.
  unfold wrap16. rewrite Zplus_mod_idemp_l. f_equal. lia.
Qed.

(** X20.  The descriptor of a fetched opcode tells what the step does
    with PC and the cycle count: its length is 1, 2 or 3 bytes, its
    cost, which the step returns, is 4, 8 or 16 cycles, and unless the
    opcode is JP nn (0xC3) the step leaves PC exactly that many bytes
    further on (in 16 bits): handlers fetch the operand bytes the
    descriptor declares, no more and no fewer. *)
Theorem Step_advances_by_Bytes cpu :
  CPU.Halted cpu = false ->
  let opcode := Read (CPU.Memory cpu) (Registers.PC (CPU.Registers cpu)) in
  let o := lookupOpcode opcode in
  Bytes o ∈ [1; 2; 3] /\
  Cycles o ∈ [4; 8; 16] /\
  snd (Step cpu) = Cycles o /\
  (opcode <> 0xC3 ->
   Registers.PC (CPU.Registers (fst (Step cpu))) =
   wrap16 (Registers.PC (CPU.Registers cpu) + Bytes o)).
Proof.
  intros Hh opcode o.
  rewrite (Step_at cpu o Hh eq_refl). cbn [fst snd]. subst o.
  rewrite (lookupOpcode_view opcode). cbv zeta.
  repeat case_decide;
    (split; [cbn; rewrite !elem_of_cons; auto 10|]);
    (split; [cbn; rewrite !elem_of_cons; auto 10|]);
    (split; [reflexivity|]); intros Hne; try lia;
    try (cbn [Execute]; destruct (opADD_A_B_only_A_F (snd (fetchByte cpu))) as (a & f & ->));
    cbn; rewrite ?wrap16_succ_succ; reflexivity.
Qed.

Lemma Step_TotalCycles cpu :
  CPU.Halted cpu = false ->
  CPU.TotalCycles (fst (Step cpu)) = wrap64 (CPU.TotalCycles cpu + snd (Step cpu)) /\
  snd (Step cpu) ∈ [4; 8; 16].
Proof.
  intros Hh.
  rewrite (Step_at cpu _ Hh eq_refl). cbn [fst snd].
  rewrite (lookupOpcode_view (Read (CPU.Memory cpu) (Registers.PC (CPU.Registers cpu)))).
  cbv zeta.
  repeat case_decide;
    try (cbn [Execute]; destruct (opADD_A_B_only_A_F (snd (fetchByte cpu))) as (a & f & ->));
    (split; [reflexivity|cbn; rewrite !elem_of_cons; auto 10]).
Qed.

Lemma run_S (n : nat) cpu :
  run (S n) cpu =
  (fst (run n (fst (Step cpu))), snd (Step cpu) :: snd (run n (fst (Step cpu)))).
Proof.
  cbn [run]. destruct (Step cpu) as [cpu1 c]. cbn [fst snd].
  destruct (run n cpu1) as [cpu2 cs]. reflexivity.
Qed.

(** X21.  Cycle accounting over a run: [n] steps of a running CPU
    return [n] cycle counts, each 4, 8 or 16; the total-cycles counter
    grows by their sum (in 64 bits); the CPU is still running, and the
    memory is the one it started with. *)
Theorem run_accounts_cycles (n : nat) cpu :
  CPU.Halted cpu = false ->
  0 <= CPU.TotalCycles cpu < 2 ^ 64 ->
  let cpu' := fst (run n cpu) in
  let cycles := snd (run n cpu) in
  length cycles = n /\
  Forall (fun c => c ∈ [4; 8; 16]) cycles /\
  CPU.TotalCycles cpu' = wrap64 (CPU.TotalCycles cpu + total cycles) /\
  CPU.Halted cpu' = false /\
  CPU.Memory cpu' = CPU.Memory cpu.
Proof.
  cbv zeta. revert cpu. induction n as [|n IH]; intros cpu Hh Htc.
  - cbn [run fst snd length total foldr]. rewrite Z.add_0_r.
    unfold wrap64. rewrite Z.mod_small by exact Htc. auto.
  - rewrite run_S. cbn [fst snd length total foldr].
    destruct (Step_TotalCycles cpu Hh) as (Htc1 & Hc1).
    assert (Hh1 : CPU.Halted (fst (Step cpu)) = false)
      by (rewrite Step_keeps_Halted; exact Hh).
    assert (Hr1 : 0 <= CPU.TotalCycles (fst (Step cpu)) < 2 ^ 64)
      by (rewrite Htc1; apply Z.mod_pos_bound; lia).
    destruct (IH (fst (Step cpu)) Hh1 Hr1) as (Hlen & Hall & Htot & Hhalt & Hmem).
    split; [rewrite Hlen; reflexivity|].
    split; [constructor; assumption|].
    split; [|split; [exact Hhalt|rewrite Hmem; apply Step_keeps_Memory]].
    rewrite Htot, Htc1. unfold wrap64, total.
    rewrite Zplus_mod_idemp_l. f_equal. lia.
Qed.

(** X22.  A halted CPU stays halted for ever: [n] steps return 4 each
    and leave the CPU, its cycle total included, exactly as it was. *)
Theorem run_halted (n : nat) cpu :
  CPU.Halted cpu = true -> run n cpu = (cpu, replicate n 4).
Proof.
  intros Hh. induction n as [|n IH].
  - reflexivity.
  - rewrite run_S. unfold Step at 1 2 3. rewrite Hh. cbn [fst snd].
    rewrite IH. reflexivity.
Qed.

(** X23.  A step looks at three bytes of memory at most, those at PC,
    PC+1 and PC+2 (in 16 bits): two CPUs in the same state whose
    memories agree there end a step with the same registers, the same
    cycle total and the same returned cost, whatever the rest of the
    two memories holds. *)
Theorem Step_reads_three_bytes (cpu1 cpu2 : CPU M) :
  CPU.Registers cpu1 = CPU.Registers cpu2 ->
  CPU.Halted cpu1 = CPU.Halted cpu2 ->
  CPU.TotalCycles cpu1 = CPU.TotalCycles cpu2 ->
  let pc := Registers.PC (CPU.Registers cpu1) in
  Read (CPU.Memory cpu1) pc = Read (CPU.Memory cpu2) pc ->
  Read (CPU.Memory cpu1) (wrap16 (pc + 1)) = Read (CPU.Memory cpu2) (wrap16 (pc + 1)) ->
  Read (CPU.Memory cpu1) (wrap16 (pc + 2)) = Read (CPU.Memory cpu2) (wrap16 (pc + 2)) ->
  CPU.Registers (fst (Step cpu1)) = CPU.Registers (fst (Step cpu2)) /\
  CPU.TotalCycles (fst (Step cpu1)) = CPU.TotalCycles (fst (Step cpu2)) /\
  snd (Step cpu1) = snd (Step cpu2).
Proof.
  destruct cpu1 as [r m1 h t], cpu2 as [r2 m2 h2 t2].
  cbn [CPU.Registers CPU.Halted CPU.TotalCycles CPU.Memory].
  intros <- <- <- H0 H1 H2.
  rewrite <- wrap16_succ_succ in H2.
  destruct h.
  - unfold Step. cbn [CPU.Halted fst snd CPU.Registers CPU.TotalCycles]. auto.
  - rewrite (Step_at (CPU.mk r m1 false t) _ eq_refl eq_refl).
    rewrite (Step_at (CPU.mk r m2 false t) _ eq_refl eq_refl).
    cbn [CPU.Registers CPU.Memory fst snd]. rewrite <- H0.
    rewrite (lookupOpcode_view (Read m1 (Registers.PC r))). cbv zeta.
    repeat case_decide; cbn; rewrite <- ?H1, <- ?H2; auto.
Qed.

(** X24.  [fetchWord] reads the low byte at PC and the high byte at the
    next address, the address after 0xFFFF being 0x0000; it leaves PC
    two addresses on (in 16 bits) and changes nothing else; and when the
    two bytes read are bytes, the word is [low + 256 * high], a 16-bit
    value. *)
Theorem fetchWord_little_endian cpu :
  let r := CPU.Registers cpu in
  let low := Read (CPU.Memory cpu) (Registers.PC r) in
  let high := Read (CPU.Memory cpu) (wrap16 (Registers.PC r + 1)) in
  fetchWord cpu =
    (pair16 high low,
     CPU.set_Registers (Registers.set_PC (wrap16 (Registers.PC r + 2)) r) cpu) /\
  (Registers.PC r = 0xFFFF -> high = Read (CPU.Memory cpu) 0x0000) /\
  (is_u8 low -> is_u8 high ->
   fst (fetchWord cpu) = low + 256 * high /\ is_u16 (fst (fetchWord cpu))).
Proof.
  intros r low high.
  assert (Hfw : fetchWord cpu =
                (pair16 high low,
                 CPU.set_Registers (Registers.set_PC (wrap16 (Registers.PC r + 2)) r) cpu)).
  { unfold fetchWord, fetchByte. cbn. rewrite wrap16_succ_succ. reflexivity. }
  split; [exact Hfw|]. split.
  - intros Hpc. unfold high. rewrite Hpc. reflexivity.
  - intros Hl Hh. rewrite Hfw. cbn [fst].
    split; [apply pair16_bytes|apply pair16_u16]; assumption.
Qed.
End MoreProcessorProperties.

(** ** The same steps on a concrete system *)

Lemma Step_LD_r_n_witness :
  let cpu := setupCPU [0x0E; 0x34] in
  Registers.C (CPU.Registers (fst (Step cpu))) = 0x34 /\
  Registers.PC (CPU.Registers (fst (Step cpu))) = 2 /\
  snd (Step cpu) = 8.
Proof.
  intros cpu.
  pose proof (proj2 (proj2 (Step_LD_r_n cpu eq_refl))) as Hstep.
  cbv zeta in Hstep. rewrite Hstep by (vm_compute; reflexivity).
  vm_compute. repeat split.
Defined.

Lemma Step_LD_A_r_witness :
  let cpu := CPU.set_Registers (Registers.set_B 0x99 NewRegisters) (setupCPU [0x78]) in
  Registers.A (CPU.Registers (fst (Step cpu))) = 0x99 /\
  Registers.B (CPU.Registers (fst (Step cpu))) = 0x99 /\
  snd (Step cpu) = 4.
Proof.
  intros cpu.
  pose proof (proj1 (Step_LD_A_r cpu eq_refl)) as Hstep.
  cbv zeta in Hstep. rewrite Hstep by (vm_compute; reflexivity).
  vm_compute. repeat split.
Defined.

Lemma Step_NOP_witness :
  let cpu := setupCPU [0x00] in
  Registers.PC (CPU.Registers (fst (Step cpu))) = 1 /\ snd (Step cpu) = 4.
Proof.
  intros cpu.
  rewrite (Step_NOP cpu eq_refl) by (vm_compute; reflexivity).
  vm_compute. repeat split.
Defined.

Lemma Step_ADD_A_B_frame_witness :
  let cpu := CPU.set_Registers (SetHL 0xC0DE (SetBC 0x0134 NewRegisters)) (setupCPU [0x80]) in
  Registers.B (CPU.Registers (fst (Step cpu))) = 0x01 /\
  Registers.C (CPU.Registers (fst (Step cpu))) = 0x34.
Proof.
  intros cpu.
  assert (Hop : Read (CPU.Memory cpu) (Registers.PC (CPU.Registers cpu)) = 0x80)
    by (vm_compute; reflexivity).
  destruct (Step_ADD_A_B_frame cpu eq_refl Hop) as (HB & HC & _).
  rewrite HB, HC. split; reflexivity.
Defined.

Lemma ADD_A_B_arithmetic_witness :
  let cpu := CPU.set_Registers (Registers.set_B 0x01 (Registers.set_A 0xFF NewRegisters))
               (setupCPU [0x80]) in
  let r' := CPU.Registers (opADD_A_B cpu) in
  Registers.A r' + 256 * Z.b2z (GetFlagC r') = 0xFF + 0x01.
Proof.
  intros cpu.
  apply (ADD_A_B_arithmetic cpu); unfold is_u8; cbn; lia.
Defined.

Lemma Step_advances_by_Bytes_witness :
  let cpu := setupCPU [0x3E; 0x05] in
  Registers.PC (CPU.Registers (fst (Step cpu))) =
  wrap16 (Registers.PC (CPU.Registers cpu) + 2).
Proof.
  intros cpu.
  destruct (Step_advances_by_Bytes cpu eq_refl) as (_ & _ & _ & Hpc).
  cbv zeta in Hpc. rewrite Hpc by (vm_compute; discriminate).
  vm_compute. reflexivity.
Defined.

Lemma run_accounts_cycles_witness :
  let cpu := setupCPU [0x3E; 0x05; 0x06; 0x03; 0x80] in
  CPU.TotalCycles (fst (run 3 cpu)) =
  wrap64 (CPU.TotalCycles cpu + total (snd (run 3 cpu))).
Proof.
  intros cpu.
  apply (run_accounts_cycles 3 cpu).
  - reflexivity.
  - cbn. lia.
Defined.

Lemma run_halted_witness :
  let cpu := CPU.mk NewRegisters BasicMemory.NewBasicMemory true 12 in
  run 5 cpu = (cpu, replicate 5 4).
Proof.
  intros cpu. apply (run_halted 5 cpu). reflexivity.
Defined.

Lemma Step_reads_three_bytes_witness :
  let cpu1 := setupCPU [0xC3; 0x50; 0x01; 0xAA] in
  let cpu2 := setupCPU [0xC3; 0x50; 0x01; 0xBB; 0xCC] in
  CPU.Registers (fst (Step cpu1)) = CPU.Registers (fst (Step cpu2)) /\
  CPU.TotalCycles (fst (Step cpu1)) = CPU.TotalCycles (fst (Step cpu2)) /\
  snd (Step cpu1) = snd (Step cpu2).
Proof.
  intros cpu1 cpu2.
  apply (Step_reads_three_bytes cpu1 cpu2); vm_compute; reflexivity.
Defined.

Lemma fetchWord_little_endian_witness :
  let cpu := CPU.set_Registers (Registers.set_PC 1 NewRegisters) (setupCPU [0xC3; 0x50; 0x01]) in
  fst (fetchWord cpu) = 0x50 + 256 * 0x01 /\ is_u16 (fst (fetchWord cpu)).
Proof.
  intros cpu.
  pose proof (proj2 (proj2 (fetchWord_little_endian cpu))) as Hword.
  cbv zeta in Hword.
  assert (Hlow : is_u8 (Read (CPU.Memory cpu) (Registers.PC (CPU.Registers cpu))))
    by (vm_compute; split; [discriminate|reflexivity]).
  assert (Hhigh : is_u8 (Read (CPU.Memory cpu)
                           (wrap16 (Registers.PC (CPU.Registers cpu) + 1))))
    by (vm_compute; split; [discriminate|reflexivity]).
  exact (Hword Hlow Hhigh).
Defined.

(** ** The demonstration programs of [cmd/yagbc], replayed *)

(** [testBasicArithmetic]: 10 + 20 = 30. *)
Example demo_basic_arithmetic :
  Registers.A (CPU.Registers (fst (run 3 (setupCPU [0x3E; 0x0A; 0x06; 0x14; 0x80])))) = 30.
Proof. vm_compute. reflexivity. Qed.

(** [testRegisterCopying]: A = 0x99, B = 0x42, C = 0x99 after four steps. *)
Example demo_register_copying :
  let r := CPU.Registers (fst (run 4 (setupCPU [0x06; 0x42; 0x78; 0x0E; 0x99; 0x79]))) in
  (Registers.A r, Registers.B r, Registers.C r) = (0x99, 0x42, 0x99).
Proof. vm_compute. reflexivity. Qed.

(** [testJumpInstruction]: the load at 0x0005 is skipped.  The last
    instruction of the program sits at 0x0007, so the jump to 0x0008
    lands on its operand byte 0x22, an unassigned opcode: three steps
    end with A = 0x11 and PC = 0x0009. *)
Example demo_jump :
  let r := CPU.Registers
             (fst (run 3 (setupCPU [0x3E; 0x11; 0xC3; 0x08; 0x00; 0x3E; 0xFF; 0x3E; 0x22]))) in
  (Registers.A r, Registers.PC r) = (0x11, 0x0009).
Proof. vm_compute. reflexivity. Qed.

(** [TestOpADD_A_B_HalfCarry]: 0x0F + 0x01 sets H and not C. *)
Example test_half_carry :
  let r := CPU.Registers (fst (run 3 (setupCPU [0x3E; 0x0F; 0x06; 0x01; 0x80]))) in
  (Registers.A r, GetFlagH r, GetFlagC r) = (0x10, true, false).
Proof. vm_compute. reflexivity. Qed.

(* ===================================================================== *)
(** * Which step writes which register *)
(* ===================================================================== *)

Section RegisterWriters.
Context {M : Type} `{Memory M}.

Implicit Types cpu : CPU M.

(** X25.  Which opcode writes which register, on any memory: a running
    step changes F (hence any flag) only when it fetches ADD A,B
    (0x80); it changes A only for LD A,n, LD A,B, LD A,C and ADD A,B
    (0x3E, 0x78, 0x79, 0x80), B only for LD B,n (0x06) and C only for
    LD C,n (0x0E). *)
Theorem Step_register_writers cpu :
  CPU.Halted cpu = false ->
  let opcode := Read (CPU.Memory cpu) (Registers.PC (CPU.Registers cpu)) in
  let r := CPU.Registers cpu in
  let r' := CPU.Registers (fst (Step cpu)) in
  (opcode <> 0x80 -> Registers.F r' = Registers.F r) /\
  (opcode ∉ [0x3E; 0x78; 0x79; 0x80] -> Registers.A r' = Registers.A r) /\
  (opcode <> 0x06 -> Registers.B r' = Registers.B r) /\
  (opcode <> 0x0E -> Registers.C r' = Registers.C r).
Proof.
  intros Hh opcode r r'. subst r'.
  rewrite (Step_running cpu Hh). cbv zeta. fold opcode.
  rewrite (lookupOpcode_view opcode). cbv zeta.
  repeat case_decide;
    try (cbn [Execute]; destruct (opADD_A_B_only_A_F (snd (fetchByte cpu))) as (a & f & ->));
    (split; [|split; [|split]]); intros Hne;
    rewrite ?not_elem_of_cons in Hne; try reflexivity; lia.
Qed.
End RegisterWriters.

Lemma Step_register_writers_witness :
  let cpu := CPU.set_Registers (SetFlags true false true true NewRegisters)
               (setupCPU [0x3E; 0x42]) in
  Registers.F (CPU.Registers (fst (Step cpu))) = Registers.F (CPU.Registers cpu).
Proof.
  intros cpu.
  apply (proj1 (Step_register_writers cpu eq_refl)).
  vm_compute. discriminate.
Defined.

(** X26.  Running off the mapped memory: when PC is at an unmapped
    address (0x8000-0xBFFF, 0xFE00-0xFF7F or 0xFFFF) the opcode read is
    0xFF, an unassigned opcode, so a running step costs 4 cycles and
    only moves PC one address on; from 0xFFFF it wraps to 0x0000. *)
Theorem Step_at_unmapped_PC (cpu : CPU BasicMemory) :
  CPU.Halted cpu = false ->
  unmapped (Registers.PC (CPU.Registers cpu)) ->
  let r := CPU.Registers cpu in
  Step cpu =
    (CPU.mk (Registers.set_PC (wrap16 (Registers.PC r + 1)) r) (CPU.Memory cpu)
       false (wrap64 (CPU.TotalCycles cpu + 4)), 4) /\
  (Registers.PC r = 0xFFFF ->
   Registers.PC (CPU.Registers (fst (Step cpu))) = 0x0000).
Proof.
  intros Hh Hu r. subst r.
  assert (Hop : Read (CPU.Memory cpu) (Registers.PC (CPU.Registers cpu)) = 0xFF).
  { cbn [Read BasicMemory_Memory]. unfold BasicMemory.Read.
    destruct Hu as [Hu|[Hu|Hu]]; decode; reflexivity. }
  assert (Hstep : Step cpu =
    (CPU.mk (Registers.set_PC (wrap16 (Registers.PC (CPU.Registers cpu) + 1))
               (CPU.Registers cpu))
       (CPU.Memory cpu) false (wrap64 (CPU.TotalCycles cpu + 4)), 4)).
  { destruct cpu as [regs mem halted tc]. cbn [CPU.Halted] in Hh. subst halted.
    rewrite (Step_at (CPU.mk regs mem false tc) _ eq_refl eq_refl).
    cbn [CPU.Registers CPU.Memory] in *. rewrite Hop. reflexivity. }
  split; [exact Hstep|].
  intros Hpc. rewrite Hstep. cbn. rewrite Hpc. reflexivity.
Qed.

Lemma Step_at_unmapped_PC_witness :
  let cpu := CPU.set_Registers (Registers.set_PC 0xFFFF NewRegisters)
               (setupCPU [0xC3; 0x50; 0x01]) in
  Registers.PC (CPU.Registers (fst (Step cpu))) = 0x0000.
Proof.
  intros cpu.
  apply (proj2 (Step_at_unmapped_PC cpu eq_refl (or_intror (or_intror eq_refl)))).
  reflexivity.
Defined.
